(** * Data-access layer of the jobs tracker (database_utils.py, supabase_utils.py, login.py)

    Shallow embedding of the dual-backend data layer: the SQLite path of
    [database_utils.py], the Supabase path of [supabase_utils.py] and the
    user-table save of [login.py].  Tables are lists of records in row order;
    a Python value stored in a dynamically typed column is a [pyvalue]. *)

From Stdlib Require Import ZArith List String Ascii Bool Lia Sorting.Sorted Sorting.Permutation.
Import ListNotations.

Open Scope Z_scope.

(** ** Python values and dicts *)

Inductive pyvalue : Type :=
| PNone
| PStr (s : string)
| PInt (z : Z)
| PBool (b : bool).

Definition pyvalue_eqb (a b : pyvalue) : bool :=
  match a, b with
  | PNone, PNone => true
  | PStr s, PStr t => String.eqb s t
  | PInt x, PInt y => Z.eqb x y
  | PBool x, PBool y => Bool.eqb x y
  | _, _ => false
  end.

(** A Python dict passed by the caller, in insertion order. *)
Definition pydict := list (string * pyvalue).

(** [d.get(k)]: the value stored under [k], or [None]. *)
Fixpoint dict_get (d : pydict) (k : string) : pyvalue :=
  match d with
  | [] => PNone
  | (k', v) :: d' => if String.eqb k k' then v else dict_get d' k
  end.

(** ** Clock readings and [strftime] *)

(** A reading of [datetime.now()] (naive local time) or of SQLite's UTC clock. *)
Record datetime := mkDatetime {
  dt_year : Z; dt_month : Z; dt_day : Z;
  dt_hour : Z; dt_minute : Z; dt_second : Z
}.

Definition digit (d : Z) : ascii := ascii_of_nat (48 + Z.to_nat d).

Definition pad2 (n : Z) : string :=
  String (digit (n / 10 mod 10)) (String (digit (n mod 10)) EmptyString).

Definition pad4 (n : Z) : string :=
  String (digit (n / 1000 mod 10)) (String (digit (n / 100 mod 10))
    (String (digit (n / 10 mod 10)) (String (digit (n mod 10)) EmptyString))).

(** [t.strftime("%Y-%m-%d %H:%M:%S")] *)
Definition strftime_ts (t : datetime) : string :=
  (pad4 (dt_year t) ++ "-" ++ pad2 (dt_month t) ++ "-" ++ pad2 (dt_day t) ++ " "
   ++ pad2 (dt_hour t) ++ ":" ++ pad2 (dt_minute t) ++ ":" ++ pad2 (dt_second t))%string.

(** [t.strftime("%Y-%m-%d")], also the text of SQLite's [date(...)]. *)
Definition strftime_date (t : datetime) : string :=
  (pad4 (dt_year t) ++ "-" ++ pad2 (dt_month t) ++ "-" ++ pad2 (dt_day t))%string.

(** Proleptic Gregorian day numbers (days since 1970-01-01), as used by
    [datetime - timedelta(days=7)] and by SQLite's ['-7 days'] modifier. *)
Definition days_from_civil (y m d : Z) : Z :=
  let y' := if m <=? 2 then y - 1 else y in
  let era := y' / 400 in
  let yoe := y' - era * 400 in
  let mp := if 2 <? m then m - 3 else m + 9 in
  let doy := (153 * mp + 2) / 5 + d - 1 in
  let doe := yoe * 365 + yoe / 4 - yoe / 100 + doy in
  era * 146097 + doe - 719468.

Definition civil_from_days (z : Z) : Z * Z * Z :=
  let z' := z + 719468 in
  let era := z' / 146097 in
  let doe := z' - era * 146097 in
  let yoe := (doe - doe / 1460 + doe / 36524 - doe / 146096) / 365 in
  let doy := doe - (365 * yoe + yoe / 4 - yoe / 100) in
  let mp := (5 * doy + 2) / 153 in
  let d := doy - (153 * mp + 2) / 5 + 1 in
  let m := if mp <? 10 then mp + 3 else mp - 9 in
  ((if m <=? 2 then yoe + era * 400 + 1 else yoe + era * 400), m, d).

(** The calendar date [n] days before [t], time of day kept. *)
Definition minus_days (t : datetime) (n : Z) : datetime :=
  let '(y, m, d) :=
    civil_from_days (days_from_civil (dt_year t) (dt_month t) (dt_day t) - n) in
  mkDatetime y m d (dt_hour t) (dt_minute t) (dt_second t).

(** ** Backend selector (database_utils.py, lines 20-30) *)

Module Backend.







End Backend.

Inductive backend : Type := SQLite | Supabase.


(** ** Tables *)

(** A row of [documents]: [id], [user_id], [document_name], [document_type],
    [upload_date], [file_path], [document_content] (Supabase schema only; NULL
    on SQLite rows), [preferred_resume INTEGER DEFAULT 0]. *)
Record document := mkDocument {
  doc_id : Z;
  doc_user_id : Z;
  document_name : pyvalue;
  document_type : pyvalue;
  upload_date : pyvalue;
  file_path : pyvalue;
  document_content : pyvalue;
  preferred_resume : Z
}.

(** A row of the documents grid handed to the batch save ([documents_df]):
    the columns the grid shows, [preferred_resume] being a checkbox. *)
Record doc_row := mkDocRow {
  row_id : Z;
  row_document_name : pyvalue;
  row_document_type : pyvalue;
  row_upload_date : pyvalue;
  row_preferred_resume : bool
}.

(** The [(ok, message)] pair every public function returns. *)
Definition result := (bool * string)%type.

(** A fresh [INTEGER PRIMARY KEY] value: one more than the largest id. *)
Definition next_rowid {A} (key : A -> Z) (tbl : list A) : Z :=
  1 + fold_left (fun m r => Z.max m (key r)) tbl 0.

(** ** Batch save of the documents grid (database_utils.py 283-320,
    supabase_utils.py 203-228) *)

Section DocumentBatch.

(** [SELECT user_id FROM documents WHERE id = ?] followed by [fetchone()]
    (SQLite), or [.select('user_id').eq('id', ..)] and [data[0]] (Supabase). *)
Fixpoint fetch_owner (tbl : list document) (i : Z) : option Z :=
  match tbl with
  | [] => None
  | d :: tbl' => if Z.eqb (doc_id d) i then Some (doc_user_id d) else fetch_owner tbl' i
  end.

(** [1 if row['preferred_resume'] else 0] *)
Definition preferred_value (b : bool) : Z := if b then 1 else 0.

(** [UPDATE documents SET preferred_resume = ? WHERE id = ? AND user_id = ?],
    and the Supabase [.update({'preferred_resume': v}).eq('id', ..).eq('user_id', ..)]. *)
Definition set_preferred (v i user_id : Z) (tbl : list document) : list document :=
  map (fun d =>
         if Z.eqb (doc_id d) i && Z.eqb (doc_user_id d) user_id
         then {| doc_id := doc_id d; doc_user_id := doc_user_id d;
                 document_name := document_name d; document_type := document_type d;
                 upload_date := upload_date d; file_path := file_path d;
                 document_content := document_content d; preferred_resume := v |}
         else d) tbl.

(** One iteration of [for _, row in documents_df.iterrows(): ...]: the
    ownership check, then the update; a row whose stored owner is not
    [user_id] is skipped ([continue]).  Both backends run this body. *)
Definition update_step (user_id : Z) (tbl : list document) (r : doc_row) : list document :=
  match fetch_owner tbl (row_id r) with
  | Some owner =>
      if Z.eqb owner user_id
      then set_preferred (preferred_value (row_preferred_resume r)) (row_id r) user_id tbl
      else tbl
  | None => tbl
  end.

Definition update_documents (user_id : Z) (rows : list doc_row) (tbl : list document)
  : list document :=
  fold_left (update_step user_id) rows tbl.

(** [len(documents_df[documents_df['preferred_resume'] == True])] *)
Definition preferred_count (rows : list doc_row) : nat :=
  List.length (filter row_preferred_resume rows).

Definition msg_too_many_preferred : string :=
  "Only one document can be set as preferred resume per user".
Definition msg_documents_updated : string := "Documents updated successfully!"%string.

(** SQLite path: the early [return] happens before [conn.commit()], so the
    stored table is the one before the call; otherwise the loop's updates are
    committed together. *)
Definition sqlite_save_documents_to_database (user_id : Z) (rows : list doc_row)
  (db : list document) : result * list document :=
  if Nat.ltb 1 (preferred_count rows) then ((false, msg_too_many_preferred), db)
  else ((true, msg_documents_updated), update_documents user_id rows db).

(** Supabase path: no transaction, each [.update(..).execute()] lands at once;
    the count check comes before the first request. *)
Definition supabase_save_documents_to_database (user_id : Z) (rows : list doc_row)
  (db : list document) : result * list document :=
  if Nat.ltb 1 (preferred_count rows) then ((false, msg_too_many_preferred), db)
  else
    let db' := update_documents user_id rows db in
    ((true, msg_documents_updated), db').

End DocumentBatch.

Definition save_documents_to_database (b : backend) :
  Z -> list doc_row -> list document -> result * list document :=
  match b with
  | SQLite => sqlite_save_documents_to_database
  | Supabase => supabase_save_documents_to_database
  end.

(** ** Single-row upload (database_utils.py 191-215, supabase_utils.py 168-185) *)

(** SQLite: [INSERT INTO documents (user_id, document_name, document_type,
    upload_date, file_path)]; [preferred_resume] takes its column default 0. *)
Definition sqlite_add_document (user_id : Z) (document_data : pydict) (now : datetime)
  (db : list document) : result * list document :=
  let d := {| doc_id := next_rowid doc_id db; doc_user_id := user_id;
              document_name := dict_get document_data "document_name"%string;
              document_type := dict_get document_data "document_type"%string;
              upload_date := PStr (strftime_ts now);
              file_path := dict_get document_data "file_path"%string;
              document_content := PNone;
              preferred_resume := 0 |} in
  ((true, "Document added successfully!"%string), db ++ [d]).

(** Supabase: the record sets ['preferred_resume': 0] explicitly. *)
Definition supabase_add_document (user_id : Z) (document_data : pydict) (now : datetime)
  (db : list document) : result * list document :=
  let d := {| doc_id := next_rowid doc_id db; doc_user_id := user_id;
              document_name := dict_get document_data "document_name"%string;
              document_type := dict_get document_data "document_type"%string;
              upload_date := PStr (strftime_ts now);
              file_path := dict_get document_data "file_path"%string;
              document_content := dict_get document_data "document_content"%string;
              preferred_resume := 0 |} in
  ((true, "Document added successfully!"%string), db ++ [d]).

Definition add_document (b : backend) :
  Z -> pydict -> datetime -> list document -> result * list document :=
  match b with
  | SQLite => sqlite_add_document
  | Supabase => supabase_add_document
  end.

(** ** Document delete (database_utils.py 337-373, supabase_utils.py 256-269) *)

(** [SELECT file_path FROM documents WHERE id = ? AND user_id = ?] *)
Fixpoint select_file_path (tbl : list document) (i user_id : Z) : option pyvalue :=
  match tbl with
  | [] => None
  | d :: tbl' =>
      if Z.eqb (doc_id d) i && Z.eqb (doc_user_id d) user_id then Some (file_path d)
      else select_file_path tbl' i user_id
  end.

(** [DELETE FROM documents WHERE id = ? AND user_id = ?] *)
Definition delete_rows (tbl : list document) (i user_id : Z) : list document :=
  filter (fun d => negb (Z.eqb (doc_id d) i && Z.eqb (doc_user_id d) user_id)) tbl.

Definition msg_not_found : string := "Document not found or access denied"%string.

(** SQLite path; the file system is the list of existing paths, and a stored
    path that exists is removed after the row. *)
Definition sqlite_delete_document (user_id document_id : Z)
  (db : list document) (fs : list string) : result * list document * list string :=
  match select_file_path db document_id user_id with
  | None => ((false, msg_not_found), db, fs)
  | Some fp =>
      let fs' := match fp with
                 | PStr p => if existsb (String.eqb p) fs
                             then filter (fun q => negb (String.eqb p q)) fs else fs
                 | _ => fs
                 end in
      ((true, "Document deleted successfully!"%string), delete_rows db document_id user_id, fs')
  end.

(** Supabase path: owner check on [data[0]], then the filtered delete; files
    are left alone. *)
Definition supabase_delete_document (user_id document_id : Z)
  (db : list document) (fs : list string) : result * list document * list string :=
  match fetch_owner db document_id with
  | Some owner =>
      if Z.eqb owner user_id
      then ((true, "Document deleted successfully!"%string), delete_rows db document_id user_id, fs)
      else ((false, msg_not_found), db, fs)
  | None => ((false, msg_not_found), db, fs)
  end.

Definition delete_document (b : backend) :
  Z -> Z -> list document -> list string -> result * list document * list string :=
  match b with
  | SQLite => sqlite_delete_document
  | Supabase => supabase_delete_document
  end.

(** ** Preferred resume lookup (database_utils.py 322-335, supabase_utils.py 272-280) *)

(** [WHERE user_id = ? AND preferred_resume = 1 AND document_type = 'Resume'] *)
Definition is_preferred_resume_of (user_id : Z) (d : document) : bool :=
  Z.eqb (doc_user_id d) user_id && Z.eqb (preferred_resume d) 1
  && pyvalue_eqb (document_type d) (PStr "Resume"%string).

(** [... LIMIT 1], then [result if not result.empty else None]: the frame
    returned is a list of rows. *)
Definition get_preferred_resume (b : backend) (user_id : Z) (db : list document)
  : option (list document) :=
  match firstn 1 (filter (is_preferred_resume_of user_id) db) with
  | [] => None
  | frame => Some frame
  end.

(** ** Jobs, career goals, user profile (database_utils.py 157-281,
    supabase_utils.py 144-200, 230-253) *)

(** A row of [jobs]. *)
Record job := mkJob {
  job_id : Z;
  job_user_id : Z;
  company_name : pyvalue; job_title : pyvalue; job_description : pyvalue;
  application_url : pyvalue; status : pyvalue; sentiment : pyvalue; notes : pyvalue;
  date_added : pyvalue; location : pyvalue; salary : pyvalue; applied_date : pyvalue
}.

(** [INSERT INTO jobs (...) VALUES (...)] with [date_added] from
    [datetime.now().strftime("%Y-%m-%d %H:%M:%S")]; the Supabase record has
    the same fields. *)
Definition new_job_row (user_id : Z) (job_data : pydict) (now : datetime) (tbl : list job) : job :=
  {| job_id := next_rowid job_id tbl; job_user_id := user_id;
     company_name := dict_get job_data "company_name"%string;
     job_title := dict_get job_data "job_title"%string;
     job_description := dict_get job_data "job_description"%string;
     application_url := dict_get job_data "application_url"%string;
     status := dict_get job_data "status"%string;
     sentiment := dict_get job_data "sentiment"%string;
     notes := dict_get job_data "notes"%string;
     date_added := PStr (strftime_ts now);
     location := dict_get job_data "location"%string;
     salary := dict_get job_data "salary"%string;
     applied_date := dict_get job_data "applied_date"%string |}.

Definition add_job (b : backend) (user_id : Z) (job_data : pydict) (now : datetime)
  (tbl : list job) : result * list job :=
  match b with
  | SQLite | Supabase =>
      ((true, "Job added successfully!"%string), tbl ++ [new_job_row user_id job_data now tbl])
  end.

(** A row of [career_goals]. *)
Record career_goal := mkCareerGoal {
  goal_id : Z;
  goal_user_id : Z;
  goals_text : pyvalue;
  submission_date : pyvalue
}.

Definition add_career_goals (b : backend) (user_id : Z) (goals : pyvalue) (now : datetime)
  (tbl : list career_goal) : result * list career_goal :=
  match b with
  | SQLite | Supabase =>
      ((true, "Career goals added successfully!"%string),
       tbl ++ [{| goal_id := next_rowid goal_id tbl; goal_user_id := user_id;
                  goals_text := goals; submission_date := PStr (strftime_ts now) |}])
  end.

(** A row of [user_profile] ([user_id] is UNIQUE). *)
Record profile := mkProfile {
  prof_id : Z;
  prof_user_id : Z;
  selected_resume : pyvalue;
  created_date : pyvalue;
  last_updated_date : pyvalue
}.

(** [update_user_profile]: update the user's row when one exists, else insert.
    [now1] and [now2] are the successive [datetime.now()] calls of the body
    (SQLite: [last_updated_date] on update, then [created_date] and
    [last_updated_date] on insert; Supabase: [last_updated_date] first, then
    [created_date] on insert). *)
Definition update_user_profile (b : backend) (user_id : Z) (profile_data : pydict)
  (now1 now2 : datetime) (tbl : list profile) : result * list profile :=
  let sel := dict_get profile_data "selected_resume"%string in
  if existsb (fun p => Z.eqb (prof_user_id p) user_id) tbl then
    ((true, "Profile updated successfully!"%string),
     map (fun p => if Z.eqb (prof_user_id p) user_id
                   then {| prof_id := prof_id p; prof_user_id := prof_user_id p;
                           selected_resume := sel; created_date := created_date p;
                           last_updated_date := PStr (strftime_ts now1) |}
                   else p) tbl)
  else
    let '(created, updated) :=
      match b with
      | SQLite => (now1, now2)
      | Supabase => (now2, now1)
      end in
    ((true, "Profile updated successfully!"%string),
     tbl ++ [{| prof_id := next_rowid prof_id tbl; prof_user_id := user_id;
                selected_resume := sel; created_date := PStr (strftime_ts created);
                last_updated_date := PStr (strftime_ts updated) |}]).

(** ** Statistics (database_utils.py 375-407, supabase_utils.py 282-318) *)

Record user_stats := mkStats {
  total_applications : nat;
  status_counts : list (pyvalue * nat);
  recent_applications : nat
}.

(** Python dict lookup [status_counts.get(k)]; dict equality ignores order. *)
Fixpoint counts_get (c : list (pyvalue * nat)) (k : pyvalue) : option nat :=
  match c with
  | [] => None
  | (k', n) :: c' => if pyvalue_eqb k k' then Some n else counts_get c' k
  end.

(** Counting grouped by key, one entry per distinct key. *)
Fixpoint bump (c : list (pyvalue * nat)) (k : pyvalue) : list (pyvalue * nat) :=
  match c with
  | [] => [(k, 1%nat)]
  | (k', n) :: c' => if pyvalue_eqb k k' then (k', S n) :: c' else (k', n) :: bump c' k
  end.

Definition group_counts (keys : list pyvalue) : list (pyvalue * nat) :=
  fold_left bump keys [].

Definition is_none (v : pyvalue) : bool :=
  match v with PNone => true | _ => false end.

(** [date_added >= cutoff] on text; a NULL / [None] compares false. *)
Definition added_since (cutoff : string) (v : pyvalue) : bool :=
  match v with
  | PStr s => String.leb cutoff s
  | _ => false
  end.

(** SQLite path: [COUNT] of all rows, [GROUP BY status] (NULL is a group of its own,
    read back as key [None]), and [date_added >= date('now', '-7 days')],
    SQLite's ['now'] being UTC. *)
Definition sqlite_get_user_stats (user_id : Z) (now_utc : datetime) (tbl : list job)
  : user_stats :=
  let rows := filter (fun j => Z.eqb (job_user_id j) user_id) tbl in
  let cutoff := strftime_date (minus_days now_utc 7) in
  {| total_applications := List.length rows;
     status_counts := group_counts (map status rows);
     recent_applications := List.length (filter (fun j => added_since cutoff (date_added j)) rows) |}.

(** Supabase path: fetch [status, date_added] of the user's jobs, then
    [len(jobs_df)], [jobs_df['status'].value_counts()] (which drops missing
    values) and [jobs_df['date_added'] >= seven_days_ago] with the cutoff from
    the local [datetime.now()]. *)
Definition supabase_get_user_stats (user_id : Z) (now_local : datetime) (tbl : list job)
  : user_stats :=
  let rows := filter (fun j => Z.eqb (job_user_id j) user_id) tbl in
  match rows with
  | [] => {| total_applications := 0; status_counts := []; recent_applications := 0 |}
  | _ =>
      let seven_days_ago := strftime_date (minus_days now_local 7) in
      {| total_applications := List.length rows;
         status_counts := group_counts (filter (fun v => negb (is_none v)) (map status rows));
         recent_applications :=
           List.length (filter (fun j => added_since seven_days_ago (date_added j)) rows) |}
  end.

(** ** Users and the whole database (login.py 21-67) *)

Record user_row := mkUser {
  user_id_of : Z;
  username : pyvalue;
  password_hash : pyvalue;
  email : pyvalue;
  created_at : pyvalue
}.

Record database := mkDatabase {
  users : list user_row;
  jobs : list job;
  documents : list document;
  user_profile : list profile;
  career_goals : list career_goal
}.

(** A row of the users grid ([users_df]); a new row has a missing [id]. *)
Record users_df_row := mkUsersDfRow {
  df_id : option Z;
  df_username : pyvalue;
  df_password_hash : pyvalue;
  df_email : pyvalue;
  df_created_at : pyvalue
}.

Fixpoint no_dup_values (l : list pyvalue) : bool :=
  match l with
  | [] => true
  | v :: l' => negb (existsb (pyvalue_eqb v) l') && no_dup_values l'
  end.

(** The [users] constraints checked by SQLite at each statement:
    [username TEXT UNIQUE NOT NULL], [password_hash TEXT NOT NULL],
    [email TEXT UNIQUE] (several NULLs allowed). *)
Definition users_constraints_ok (tbl : list user_row) : bool :=
  forallb (fun u => negb (is_none (username u)) && negb (is_none (password_hash u))) tbl
  && no_dup_values (map username tbl)
  && no_dup_values (filter (fun v => negb (is_none v)) (map email tbl)).

(** One statement of the update-or-insert loop; [None] is a constraint error. *)
Definition users_step (now : datetime) (acc : option (list user_row)) (row : users_df_row)
  : option (list user_row) :=
  match acc with
  | None => None
  | Some tbl =>
      let tbl' :=
        match df_id row with
        | Some i =>
            map (fun u => if Z.eqb (user_id_of u) i
                          then {| user_id_of := user_id_of u; username := df_username row;
                                  password_hash := df_password_hash row; email := df_email row;
                                  created_at := df_created_at row |}
                          else u) tbl
        | None =>
            tbl ++ [{| user_id_of := next_rowid user_id_of tbl; username := df_username row;
                       password_hash := df_password_hash row; email := df_email row;
                       created_at := PStr (strftime_ts now) |}]
        end in
      if users_constraints_ok tbl' then Some tbl' else None
  end.

Fixpoint filter_map_ids (df : list users_df_row) : list Z :=
  match df with
  | [] => []
  | r :: df' => match df_id r with
                | Some i => i :: filter_map_ids df'
                | None => filter_map_ids df'
                end
  end.

(** [save_users_to_database]: [DELETE FROM users WHERE id IN (current - edited)],
    then the update-or-insert loop, committed together or rolled back on the
    first error.  The connection never enables [PRAGMA foreign_keys], and the
    schema of [init_db] declares no [ON DELETE] action, so the [DELETE] touches
    the [users] table alone. *)
Definition save_users_to_database (users_df : list users_df_row) (now : datetime)
  (db : database) : result * database :=
  let edited_ids := filter_map_ids users_df in
  let kept := filter (fun u => existsb (Z.eqb (user_id_of u)) edited_ids) (users db) in
  match fold_left (users_step now) users_df (Some kept) with
  | Some tbl =>
      ((true, "Changes saved successfully!"%string),
       {| users := tbl; jobs := jobs db; documents := documents db;
          user_profile := user_profile db; career_goals := career_goals db |})
  | None => ((false, "Error saving changes: constraint failed"%string), db)
  end.

(** ** Auxiliary views of the document table *)

(** Every column of a document except [preferred_resume]. *)
Definition doc_frame (d : document)
  : Z * Z * pyvalue * pyvalue * pyvalue * pyvalue * pyvalue :=
  (doc_id d, doc_user_id d, document_name d, document_type d, upload_date d,
   file_path d, document_content d).

(** The per-document effect of one update. *)
Definition step_doc (u : Z) (d : document) (r : doc_row) : document :=
  if Z.eqb (doc_id d) (row_id r) && Z.eqb (doc_user_id d) u
  then {| doc_id := doc_id d; doc_user_id := doc_user_id d;
          document_name := document_name d; document_type := document_type d;
          upload_date := upload_date d; file_path := file_path d;
          document_content := document_content d;
          preferred_resume := preferred_value (row_preferred_resume r) |}
  else d.

Definition doc_after (u : Z) (rows : list doc_row) (d : document) : document :=
  fold_left (step_doc u) rows d.

(** The user's documents whose flag reads as true ([astype(bool)] in the grid). *)
Definition preferred_docs_of (u : Z) (tbl : list document) : list document :=
  filter (fun d => Z.eqb (doc_user_id d) u && negb (Z.eqb (preferred_resume d) 0)) tbl.

(** ** Order of clock readings and of their text *)

(** A clock reading as one number, fields in order of significance. *)
Definition clock_value (t : datetime) : Z :=
  ((((dt_year t * 100 + dt_month t) * 100 + dt_day t) * 100 + dt_hour t) * 100
   + dt_minute t) * 100 + dt_second t.

(** A reading within the calendar bounds of [datetime] with a four-digit year. *)
Definition clock_valid (t : datetime) : Prop :=
  1000 <= dt_year t <= 9999 /\ 1 <= dt_month t <= 12 /\ 1 <= dt_day t <= 31 /\
  0 <= dt_hour t <= 23 /\ 0 <= dt_minute t <= 59 /\ 0 <= dt_second t <= 59.

(** The fourteen digits written by [strftime_ts]. *)
Definition ts_digits (t : datetime) : list Z :=
  [dt_year t / 1000 mod 10; dt_year t / 100 mod 10; dt_year t / 10 mod 10; dt_year t mod 10;
   dt_month t / 10 mod 10; dt_month t mod 10; dt_day t / 10 mod 10; dt_day t mod 10;
   dt_hour t / 10 mod 10; dt_hour t mod 10; dt_minute t / 10 mod 10; dt_minute t mod 10;
   dt_second t / 10 mod 10; dt_second t mod 10].

Fixpoint lex_compare (l1 l2 : list Z) : comparison :=
  match l1, l2 with
  | [], [] => Eq
  | [], _ => Lt
  | _, [] => Gt
  | a :: l1', b :: l2' =>
      match Z.compare a b with
      | Eq => lex_compare l1' l2'
      | c => c
      end
  end.

Fixpoint digits_value (l : list Z) : Z :=
  match l with
  | [] => 0
  | d :: l' => d * 10 ^ Z.of_nat (List.length l') + digits_value l'
  end.

(** ** Per-user reads, SQLite path (database_utils.py 109-155) *)

(** Numeric value of a stored number; Python bools are stored as 0 and 1. *)
Definition sql_num (v : pyvalue) : Z :=
  match v with
  | PInt z => z
  | PBool b => if b then 1 else 0
  | _ => 0
  end.

(** SQLite's ascending order of stored values: NULL first, then numbers, then
    text under the BINARY collation. *)
Definition sql_le (a b : pyvalue) : bool :=
  match a, b with
  | PNone, _ => true
  | _, PNone => false
  | PStr s, PStr t => String.leb s t
  | PStr _, _ => false
  | _, PStr _ => true
  | _, _ => Z.leb (sql_num a) (sql_num b)
  end.

(** [ORDER BY key DESC], as an insertion sort: a row goes before the first
    row whose key is not larger than its own. *)
Fixpoint insert_desc {A} (key : A -> pyvalue) (x : A) (l : list A) : list A :=
  match l with
  | [] => [x]
  | y :: l' => if sql_le (key y) (key x) then x :: l else y :: insert_desc key x l'
  end.

Definition order_by_desc {A} (key : A -> pyvalue) (l : list A) : list A :=
  fold_right (insert_desc key) [] l.

(** [SELECT * FROM jobs WHERE user_id = ? ORDER BY date_added DESC] *)
Definition get_user_jobs (user_id : Z) (tbl : list job) : list job :=
  order_by_desc date_added (filter (fun j => Z.eqb (job_user_id j) user_id) tbl).

(** [SELECT * FROM documents WHERE user_id = ? ORDER BY upload_date DESC] *)
Definition get_user_documents (user_id : Z) (tbl : list document) : list document :=
  order_by_desc upload_date (filter (fun d => Z.eqb (doc_user_id d) user_id) tbl).

(** [SELECT * FROM user_profile WHERE user_id = ?] *)
Definition get_user_profile (user_id : Z) (tbl : list profile) : list profile :=
  filter (fun p => Z.eqb (prof_user_id p) user_id) tbl.

(** [SELECT * FROM career_goals WHERE user_id = ? ORDER BY submission_date DESC] *)
Definition get_user_career_goals (user_id : Z) (tbl : list career_goal) : list career_goal :=
  order_by_desc submission_date (filter (fun g => Z.eqb (goal_user_id g) user_id) tbl).

(** ** The jobs grid of the Jobs Portal (jobs_portal.py 35-185) *)

(** The ten columns the grid's [UPDATE jobs SET ...] writes, in its order. *)
Record grid_fields := mkGridFields {
  gf_company_name : pyvalue; gf_job_title : pyvalue; gf_job_description : pyvalue;
  gf_application_url : pyvalue; gf_status : pyvalue; gf_sentiment : pyvalue;
  gf_notes : pyvalue; gf_location : pyvalue; gf_salary : pyvalue; gf_applied_date : pyvalue
}.

(** A row of [jobs] as this page reads and writes it.  The grid's [INSERT]
    names no [user_id] column, so the owner is a value: [PInt u], or [PNone]
    for a row inserted from the grid. *)
Record grid_job := mkGridJob {
  gj_id : Z;
  gj_user_id : pyvalue;
  gj_fields : grid_fields;
  gj_date_added : pyvalue
}.

(** A row of the edited frame; [gr_id] is missing ([NaN]) for a row added in
    the editor. *)
Record grid_row := mkGridRow {
  gr_id : option Z;
  gr_fields : grid_fields
}.

(** [show_jobs_portal], tab "Jobs Database": [SELECT * FROM jobs ORDER BY
    date_added DESC] (Supabase: [select('*').order('date_added', desc=True)]),
    every user's rows, handed to [st.data_editor]. *)
Definition jobs_grid_rows (tbl : list grid_job) : list grid_row :=
  map (fun j => mkGridRow (Some (gj_id j)) (gj_fields j)) (order_by_desc gj_date_added tbl).

(** [set(jobs_df['id'].dropna())]. *)
Fixpoint grid_ids (jobs_df : list grid_row) : list Z :=
  match jobs_df with
  | [] => []
  | r :: df' => match gr_id r with
                | Some i => i :: grid_ids df'
                | None => grid_ids df'
                end
  end.

Definition set_grid_fields (f : grid_fields) (j : grid_job) : grid_job :=
  {| gj_id := gj_id j; gj_user_id := gj_user_id j; gj_fields := f;
     gj_date_added := gj_date_added j |}.

(** One iteration of [for _, row in jobs_df.iterrows()]: [UPDATE jobs SET
    ... WHERE id = ?] when the row has an id, the [INSERT] (no [user_id])
    otherwise. *)
Definition jobs_grid_step (now : datetime) (tbl : list grid_job) (row : grid_row)
  : list grid_job :=
  match gr_id row with
  | Some i => map (fun j => if Z.eqb (gj_id j) i then set_grid_fields (gr_fields row) j else j) tbl
  | None => tbl ++ [{| gj_id := next_rowid gj_id tbl; gj_user_id := PNone;
                       gj_fields := gr_fields row; gj_date_added := PStr (strftime_ts now) |}]
  end.

(** [save_jobs_to_database(jobs_df)] of jobs_portal.py, on the path where every
    statement succeeds.  Both backends read the ids of all rows of [jobs]
    ([SELECT id FROM jobs], [select('id')]), delete those missing from the
    frame ([DELETE ... WHERE id IN (...)], one [delete().eq('id', ...)] each),
    then update by id or insert; no statement filters on [user_id]. *)
Definition save_jobs_to_database (b : backend) (jobs_df : list grid_row) (now : datetime)
  (tbl : list grid_job) : result * list grid_job :=
  let current_ids := map gj_id tbl in
  let edited_ids := grid_ids jobs_df in
  let ids_to_delete := filter (fun i => negb (existsb (Z.eqb i) edited_ids)) current_ids in
  let kept := filter (fun j => negb (existsb (Z.eqb (gj_id j)) ids_to_delete)) tbl in
  match b with
  | SQLite | Supabase =>
      ((true, "Changes saved successfully!"%string), fold_left (jobs_grid_step now) jobs_df kept)
  end.

(** ** Registration and login, SQLite path (login.py 69-240, 302-361) *)

(** Python truthiness of a [str]. *)
Definition truthy (s : string) : bool := negb (String.eqb s "").

(** [len] of a [str] counts code points.  A string here is the UTF-8 byte
    sequence of the text, so [len] counts its bytes other than continuation
    bytes ([10xxxxxx]): ['ééé'] has 6 bytes and length 3. *)
Definition utf8_lead_byte (a : ascii) : bool :=
  Nat.ltb (nat_of_ascii a) 128 || Nat.leb 192 (nat_of_ascii a).

Fixpoint py_len (s : string) : nat :=
  match s with
  | EmptyString => 0
  | String a s' => (if utf8_lead_byte a then 1 else 0) + py_len s'
  end.

Definition msg_required : string := "Username and password are required.".
Definition msg_username_taken : string :=
  "Username already exists. Please choose a different username.".
Definition msg_email_taken : string :=
  "Email already registered. Please use a different email.".
Definition msg_registered : string := "Registration successful! You can now login.".
(** [f"Database error: {str(e)}"] for the [IntegrityError] of the [INSERT];
    with the username checked just before, the only constraint left to fail is
    [email TEXT UNIQUE]. *)
Definition msg_email_constraint : string :=
  "Database error: UNIQUE constraint failed: users.email".

Section Login.

(** [hash_password]: the SHA-256 hex digest of the password (login.py 69-71). *)
Variable hash_password : string -> string.

(** The row of [INSERT INTO users (username, password_hash, email, created_at)]. *)
Definition new_user_row (user_name password : string) (email_in : option string)
  (now : datetime) (tbl : list user_row) : user_row :=
  {| user_id_of := next_rowid user_id_of tbl; username := PStr user_name;
     password_hash := PStr (hash_password password);
     email := match email_in with Some e => PStr e | None => PNone end;
     created_at := PStr (strftime_ts now) |}.

(** [register_user(username, password, email)] on SQLite: the argument check,
    [SELECT id FROM users WHERE username = ?], the email lookup guarded by
    [if email:], then the [INSERT], committed only when SQLite accepts it. *)
Definition sqlite_register_user (user_name password : string) (email_in : option string)
  (now : datetime) (tbl : list user_row) : result * list user_row :=
  if negb (truthy user_name) || negb (truthy password) then ((false, msg_required), tbl)
  else if existsb (fun v => pyvalue_eqb (username v) (PStr user_name)) tbl
  then ((false, msg_username_taken), tbl)
  else if match email_in with
          | Some e => truthy e && existsb (fun v => pyvalue_eqb (email v) (PStr e)) tbl
          | None => false
          end
  then ((false, msg_email_taken), tbl)
  else
    let tbl' := tbl ++ [new_user_row user_name password email_in now tbl] in
    if users_constraints_ok tbl' then ((true, msg_registered), tbl')
    else ((false, msg_email_constraint), tbl).

(** [verify_user(username, password)] on SQLite: the first row with that
    username ([fetchone()]), then the hash comparison. *)
Definition sqlite_verify_user (user_name password : string) (tbl : list user_row)
  : bool * string * option pyvalue :=
  match find (fun v => pyvalue_eqb (username v) (PStr user_name)) tbl with
  | None => (false, "username_not_found"%string, None)
  | Some v =>
      if pyvalue_eqb (PStr (hash_password password)) (password_hash v)
      then (true, "success"%string, Some (PInt (user_id_of v)))
      else (false, "wrong_password"%string, None)
  end.

(** The register tab of [show_login_page]: the form's text inputs are strings
    ([""] when left blank), checked for matching passwords and a length of at
    least six before [register_user] runs.  [None] stands for a form error
    shown without calling [register_user]. *)
Definition register_form_submit (new_username new_password confirm_password email_text : string)
  (now : datetime) (tbl : list user_row) : option result * list user_row :=
  if negb (String.eqb new_password confirm_password) then (None, tbl)
  else if Nat.ltb (py_len new_password) 6 then (None, tbl)
  else let '(res, tbl') := sqlite_register_user new_username new_password (Some email_text) now tbl in
       (Some res, tbl').

End Login.

(** ** Schema migration (database_utils.py 409-451) *)

(** Lookup in a string-keyed mapping ([.get(k)]). *)
Fixpoint str_lookup {A} (d : list (string * A)) (k : string) : option A :=
  match d with
  | [] => None
  | (k', v) :: d' => if String.eqb k k' then Some v else str_lookup d' k
  end.

(** The SQLite schema: each table with its column names. *)
Definition schema := list (string * list string).

(** [ALTER TABLE t ADD COLUMN c ...]; [None] is the [OperationalError] raised
    for a missing table or an existing column. *)
Definition alter_add_column (t c : string) (s : schema) : option schema :=
  match str_lookup s t with
  | None => None
  | Some cols =>
      if existsb (String.eqb c) cols then None
      else Some (map (fun e => if String.eqb (fst e) t then (fst e, snd e ++ [c]) else e) s)
  end.

(** [try: c.execute('ALTER TABLE ...') except sqlite3.OperationalError: pass] *)
Definition try_alter (s : schema) (tc : string * string) : schema :=
  match alter_add_column (fst tc) (snd tc) s with
  | Some s' => s'
  | None => s
  end.

(** The five columns the migration adds, in order. *)
Definition migration_columns : list (string * string) :=
  [("jobs", "user_id"); ("documents", "user_id"); ("documents", "preferred_resume");
   ("user_profile", "user_id"); ("career_goals", "user_id")]%string.

Definition migrate_existing_data (s : schema) : result * schema :=
  ((true, "Migration completed successfully!"%string), fold_left try_alter migration_columns s).

(** * Proofs *)

(** ** Facts about the document updates *)

Lemma set_preferred_frame v i u tbl :
  map doc_frame (set_preferred v i u tbl) = map doc_frame tbl.
Proof.
  unfold set_preferred. rewrite map_map. apply map_ext.
  intros d. destruct (_ && _); reflexivity.
Qed.

Lemma update_step_frame u tbl r :
  map doc_frame (update_step u tbl r) = map doc_frame tbl.
Proof.
  unfold update_step.
  destruct (fetch_owner tbl (row_id r)) as [o|]; [|reflexivity].
  destruct (Z.eqb o u); [apply set_preferred_frame | reflexivity].
Qed.

Lemma update_documents_frame u rows tbl :
  map doc_frame (update_documents u rows tbl) = map doc_frame tbl.
Proof.
  unfold update_documents. revert tbl.
  induction rows as [|r rows IH]; intros tbl; simpl; [reflexivity|].
  rewrite IH. apply update_step_frame.
Qed.

(** Owners and ids are columns of the frame, so the ownership lookup does
    not move while the loop runs. *)
Lemma fetch_owner_frame tbl1 tbl2 i :
  map doc_frame tbl1 = map doc_frame tbl2 -> fetch_owner tbl1 i = fetch_owner tbl2 i.
Proof.
  revert tbl2. induction tbl1 as [|d1 tbl1 IH]; intros [|d2 tbl2] H; simpl in *;
    try discriminate; [reflexivity|].
  unfold doc_frame at 1 3 in H. injection H as Hid Hu _ _ _ _ _ Ht.
  rewrite Hid, Hu. destruct (Z.eqb (doc_id d2) i); [reflexivity|]. apply IH, Ht.
Qed.

Lemma map_doc_id_frame tbl1 tbl2 :
  map doc_frame tbl1 = map doc_frame tbl2 -> map doc_id tbl1 = map doc_id tbl2.
Proof.
  revert tbl2. induction tbl1 as [|d1 tbl1 IH]; intros [|d2 tbl2] H; simpl in *;
    try discriminate; [reflexivity|].
  unfold doc_frame at 1 3 in H. injection H as Hid _ _ _ _ _ _ Ht.
  rewrite Hid, (IH _ Ht). reflexivity.
Qed.

Lemma fetch_owner_some_in tbl i o :
  fetch_owner tbl i = Some o -> exists d, In d tbl /\ doc_id d = i /\ doc_user_id d = o.
Proof.
  induction tbl as [|d tbl IH]; simpl; [discriminate|].
  destruct (Z.eqb_spec (doc_id d) i) as [E|E].
  - intros H. injection H as <-. exists d. auto.
  - intros H. destruct (IH H) as (d' & ? & ? & ?). exists d'. auto.
Qed.

Lemma fetch_owner_none tbl i d :
  fetch_owner tbl i = None -> In d tbl -> doc_id d <> i.
Proof.
  induction tbl as [|d' tbl IH]; simpl; [tauto|].
  destruct (Z.eqb_spec (doc_id d') i) as [E|E]; [discriminate|].
  intros H [<-|Hin]; auto.
Qed.

(** With primary-key ids, a row is determined by its id. *)
Lemma nodup_key_inj {A} (key : A -> Z) (l : list A) x y :
  NoDup (map key l) -> In x l -> In y l -> key x = key y -> x = y.
Proof.
  induction l as [|a l IH]; simpl; [tauto|].
  intros Hnd. inversion Hnd as [|? ? Hnotin Hnd']; subst.
  intros [<-|Hx] [<-|Hy] Hk; auto.
  - exfalso. apply Hnotin. rewrite Hk. apply in_map, Hy.
  - exfalso. apply Hnotin. rewrite <- Hk. apply in_map, Hx.
Qed.

Lemma fetch_owner_unique tbl i o d :
  NoDup (map doc_id tbl) -> fetch_owner tbl i = Some o -> In d tbl -> doc_id d = i ->
  doc_user_id d = o.
Proof.
  intros Hnd Hf Hin Hid.
  destruct (fetch_owner_some_in _ _ _ Hf) as (d' & Hin' & Hid' & Ho).
  rewrite (nodup_key_inj doc_id tbl d d' Hnd Hin Hin' ltac:(congruence)). exact Ho.
Qed.

Lemma step_doc_id u d r : doc_id (step_doc u d r) = doc_id d.
Proof. unfold step_doc. destruct (_ && _); reflexivity. Qed.

Lemma step_doc_user u d r : doc_user_id (step_doc u d r) = doc_user_id d.
Proof. unfold step_doc. destruct (_ && _); reflexivity. Qed.

Lemma doc_after_id u rows d : doc_id (doc_after u rows d) = doc_id d.
Proof.
  unfold doc_after. revert d. induction rows as [|r rows IH]; intros d; simpl;
    [reflexivity|]. rewrite IH. apply step_doc_id.
Qed.

Lemma doc_after_user u rows d : doc_user_id (doc_after u rows d) = doc_user_id d.
Proof.
  unfold doc_after. revert d. induction rows as [|r rows IH]; intros d; simpl;
    [reflexivity|]. rewrite IH. apply step_doc_user.
Qed.

(** On a table with unique ids the ownership check never skips a row that the
    filtered [UPDATE] would change, so the loop is a pointwise map. *)
Lemma update_step_nodup u tbl r :
  NoDup (map doc_id tbl) ->
  update_step u tbl r = map (fun d => step_doc u d r) tbl.
Proof.
  intros Hnd. unfold update_step, set_preferred, step_doc.
  destruct (fetch_owner tbl (row_id r)) as [o|] eqn:Hf.
  - destruct (Z.eqb_spec o u) as [->|Hne]; [reflexivity|].
    symmetry. rewrite <- (map_id tbl) at 2. apply map_ext_in. intros d Hin.
    destruct (Z.eqb_spec (doc_id d) (row_id r)) as [E|E]; [|reflexivity].
    rewrite (fetch_owner_unique tbl _ o d Hnd Hf Hin E).
    destruct (Z.eqb_spec o u); [contradiction | reflexivity].
  - symmetry. rewrite <- (map_id tbl) at 2. apply map_ext_in. intros d Hin.
    destruct (Z.eqb_spec (doc_id d) (row_id r)) as [E|E]; [|reflexivity].
    exfalso. exact (fetch_owner_none tbl _ d Hf Hin E).
Qed.

Lemma update_documents_pointwise u rows tbl :
  NoDup (map doc_id tbl) ->
  update_documents u rows tbl = map (doc_after u rows) tbl.
Proof.
  unfold update_documents, doc_after. revert tbl.
  induction rows as [|r rows IH]; intros tbl Hnd; simpl.
  - symmetry. apply map_id.
  - rewrite (update_step_nodup u tbl r Hnd).
    rewrite IH.
    + rewrite map_map. reflexivity.
    + rewrite map_map. erewrite map_ext; [exact Hnd|]. intros d. apply step_doc_id.
Qed.

Lemma doc_after_untouched u rows d :
  (forall r, In r rows -> row_id r <> doc_id d) -> doc_after u rows d = d.
Proof.
  unfold doc_after. induction rows as [|r rows IH]; intros H; simpl; [reflexivity|].
  assert (Hs : step_doc u d r = d).
  { unfold step_doc. destruct (Z.eqb_spec (doc_id d) (row_id r)) as [E|E]; [|reflexivity].
    exfalso. apply (H r); [left; reflexivity | symmetry; exact E]. }
  rewrite Hs. apply IH. intros r' Hr'. apply H. right. exact Hr'.
Qed.

(** A document of the acting user that the batch lists ends up flagged only
    if some row of the batch with its id asked for it. *)
Lemma doc_after_preferred u rows d :
  doc_user_id d = u ->
  (exists r, In r rows /\ row_id r = doc_id d) ->
  preferred_resume (doc_after u rows d) <> 0 ->
  exists r, In r rows /\ row_id r = doc_id d /\ row_preferred_resume r = true.
Proof.
  revert d. induction rows as [|r rows IH]; intros d Hu Hex Hp.
  - destruct Hex as (? & [] & _).
  - change (doc_after u (r :: rows) d) with (doc_after u rows (step_doc u d r)) in Hp.
    destruct (existsb (fun r' => Z.eqb (row_id r') (doc_id d)) rows) eqn:Hb.
    + apply existsb_exists in Hb. destruct Hb as (r' & Hin & Heq).
      apply Z.eqb_eq in Heq.
      destruct (IH (step_doc u d r)) as (r'' & Hin'' & Hid'' & Hpr'').
      * rewrite step_doc_user. exact Hu.
      * exists r'. rewrite step_doc_id. auto.
      * exact Hp.
      * exists r''. rewrite step_doc_id in Hid''. auto with datatypes.
    + assert (Hnone : forall r', In r' rows -> row_id r' <> doc_id d).
      { intros r' Hin E. assert (Hf : existsb (fun r' => Z.eqb (row_id r') (doc_id d)) rows = true)
          by (apply existsb_exists; exists r'; split; [exact Hin | apply Z.eqb_eq, E]).
        congruence. }
      destruct Hex as (r0 & Hin0 & Hid0).
      destruct Hin0 as [E0|Hin0]; [subst r0 | exfalso; exact (Hnone r0 Hin0 Hid0)].
      rewrite doc_after_untouched in Hp by (rewrite step_doc_id; exact Hnone).
      exists r. split; [left; reflexivity|]. split; [exact Hid0|].
      unfold step_doc in Hp. rewrite Hid0, Z.eqb_refl, Hu, Z.eqb_refl in Hp. simpl in Hp.
      destruct (row_preferred_resume r); [reflexivity | exfalso; apply Hp; reflexivity].
Qed.

Lemma two_in_filter {A} (f : A -> bool) (l : list A) a b :
  In a l -> In b l -> a <> b -> f a = true -> f b = true ->
  (2 <= List.length (filter f l))%nat.
Proof.
  induction l as [|x l IH]; simpl; [tauto|].
  intros [<-|Ha] [<-|Hb] Hne Hfa Hfb.
  - contradiction.
  - rewrite Hfa. simpl. assert (In b (filter f l)) by (apply filter_In; auto).
    destruct (filter f l); [contradiction | simpl; lia].
  - rewrite Hfb. simpl. assert (In a (filter f l)) by (apply filter_In; auto).
    destruct (filter f l); [contradiction | simpl; lia].
  - destruct (f x); simpl; [specialize (IH Ha Hb Hne Hfa Hfb); lia | auto].
Qed.

Lemma save_documents_success b u rows db msg db' :
  save_documents_to_database b u rows db = ((true, msg), db') ->
  (preferred_count rows <= 1)%nat /\ db' = update_documents u rows db.
Proof.
  destruct b; simpl;
    unfold sqlite_save_documents_to_database, supabase_save_documents_to_database;
    destruct (Nat.ltb_spec 1 (preferred_count rows)) as [Hlt|Hge];
    intros H; inversion H; subst; split; auto.
Qed.

Lemma pyvalue_eqb_true a b : pyvalue_eqb a b = true -> a = b.
Proof.
  destruct a, b; simpl; try discriminate; intros H; try reflexivity.
  - apply String.eqb_eq in H. subst. reflexivity.
  - apply Z.eqb_eq in H. subst. reflexivity.
  - apply Bool.eqb_prop in H. subst. reflexivity.
Qed.

Lemma pyvalue_eqb_refl a : pyvalue_eqb a a = true.
Proof.
  destruct a; simpl; [reflexivity | apply String.eqb_refl | apply Z.eqb_refl | apply Bool.eqb_reflx].
Qed.

Ltac nodup_ids := simpl; repeat constructor; simpl; intuition lia.

(** ** C1: the preferred-resume invariant after a successful batch *)

(** Claim C1 (corrected).  A successful batch save means the batch flagged at
    most one row; when the batch lists every stored document of the acting
    user (as the documents grid does, ids being primary keys), at most one of
    that user's documents carries the preferred flag afterwards.  The document
    type is never consulted. *)
Theorem save_documents_full_batch_unique (b : backend) (u : Z) (rows : list doc_row)
  (db db' : list document) (msg : string) :
  NoDup (map doc_id db) ->
  (forall d, In d db -> doc_user_id d = u -> exists r, In r rows /\ row_id r = doc_id d) ->
  save_documents_to_database b u rows db = ((true, msg), db') ->
  (preferred_count rows <= 1)%nat /\
  (forall d1 d2, In d1 db' -> In d2 db' -> doc_user_id d1 = u -> doc_user_id d2 = u ->
     preferred_resume d1 <> 0 -> preferred_resume d2 <> 0 -> d1 = d2).
Proof.
  intros Hnd Hcover Hsave.
  destruct (save_documents_success _ _ _ _ _ _ Hsave) as [Hcount ->].
  split; [exact Hcount|].
  rewrite update_documents_pointwise by exact Hnd.
  intros d1 d2 H1 H2 Hu1 Hu2 Hp1 Hp2.
  apply in_map_iff in H1. destruct H1 as (e1 & <- & He1).
  apply in_map_iff in H2. destruct H2 as (e2 & <- & He2).
  rewrite doc_after_user in Hu1, Hu2.
  destruct (doc_after_preferred u rows e1 Hu1 (Hcover e1 He1 Hu1) Hp1) as (r1 & Hr1 & Hid1 & Hb1).
  destruct (doc_after_preferred u rows e2 Hu2 (Hcover e2 He2 Hu2) Hp2) as (r2 & Hr2 & Hid2 & Hb2).
  destruct (Z.eq_dec (doc_id e1) (doc_id e2)) as [E|E].
  - rewrite (nodup_key_inj doc_id db e1 e2 Hnd He1 He2 E). reflexivity.
  - exfalso.
    assert (Hne : r1 <> r2) by (intros ->; congruence).
    pose proof (two_in_filter row_preferred_resume rows r1 r2 Hr1 Hr2 Hne Hb1 Hb2).
    unfold preferred_count in Hcount. lia.
Qed.

Lemma save_documents_full_batch_unique_witness :
  NoDup (map doc_id [mkDocument 1 1 (PStr "A") (PStr "Resume") PNone PNone PNone 0;
                     mkDocument 2 1 (PStr "B") (PStr "Resume") PNone PNone PNone 1]) /\
  (preferred_count [mkDocRow 1 (PStr "A") (PStr "Resume") PNone true;
                    mkDocRow 2 (PStr "B") (PStr "Resume") PNone false] <= 1)%nat.
Proof.
  set (db := [mkDocument 1 1 (PStr "A") (PStr "Resume") PNone PNone PNone 0;
              mkDocument 2 1 (PStr "B") (PStr "Resume") PNone PNone PNone 1]).
  set (rows := [mkDocRow 1 (PStr "A") (PStr "Resume") PNone true;
                mkDocRow 2 (PStr "B") (PStr "Resume") PNone false]).
  assert (Hnd : NoDup (map doc_id db)) by nodup_ids.
  split; [exact Hnd|].
  apply (save_documents_full_batch_unique SQLite 1 rows db
           (snd (save_documents_to_database SQLite 1 rows db)) msg_documents_updated Hnd).
  - intros d Hin _. simpl in Hin.
    destruct Hin as [<-|[<-|[]]]; [exists (hd (mkDocRow 0 PNone PNone PNone false) rows)
                                   | exists (nth 1 rows (mkDocRow 0 PNone PNone PNone false))];
      split; simpl; auto.
  - vm_compute. reflexivity.
Defined.

(** Claim C1, refuted: user 1 already has document 1 (a Resume) flagged; a
    batch listing only document 2, a Cover Letter, with the flag set is
    accepted, and afterwards two documents of user 1 are flagged, one of them
    not a Resume. *)
Lemma save_documents_invariant_counterexample :
  let db := [mkDocument 1 1 (PStr "A") (PStr "Resume") PNone PNone PNone 1;
             mkDocument 2 1 (PStr "B") (PStr "Cover Letter") PNone PNone PNone 0] in
  let rows := [mkDocRow 2 (PStr "B") (PStr "Cover Letter") PNone true] in
  fst (save_documents_to_database SQLite 1 rows db) = (true, msg_documents_updated) /\
  List.length (preferred_docs_of 1 (snd (save_documents_to_database SQLite 1 rows db))) = 2%nat /\
  existsb (fun d => negb (pyvalue_eqb (document_type d) (PStr "Resume")))
    (preferred_docs_of 1 (snd (save_documents_to_database SQLite 1 rows db))) = true.
Proof. vm_compute. repeat split. Qed.

(** ** C2: rejection of a batch with several flagged rows *)

(** Claim C2.  On both backends, a batch with more than one row whose
    [preferred_resume] is true is rejected with the explanatory message, and the
    stored documents (every column of every row) are the ones before the call. *)
Theorem save_documents_rejects_multiple_preferred (b : backend) (u : Z)
  (rows : list doc_row) (db : list document) :
  (1 < preferred_count rows)%nat ->
  save_documents_to_database b u rows db = ((false, msg_too_many_preferred), db).
Proof.
  intros Hlt. apply Nat.ltb_lt in Hlt.
  destruct b; simpl;
    unfold sqlite_save_documents_to_database, supabase_save_documents_to_database;
    rewrite Hlt; reflexivity.
Qed.

Lemma save_documents_rejects_multiple_preferred_witness :
  (1 < preferred_count [mkDocRow 1 (PStr "Resume_A") (PStr "Resume") PNone true;
                        mkDocRow 2 (PStr "Resume_B") (PStr "Resume") PNone true])%nat /\
  save_documents_to_database Supabase 1
    [mkDocRow 1 (PStr "Resume_A") (PStr "Resume") PNone true;
     mkDocRow 2 (PStr "Resume_B") (PStr "Resume") PNone true]
    [mkDocument 1 1 (PStr "Resume_A") (PStr "Resume") PNone PNone PNone 0;
     mkDocument 2 1 (PStr "Resume_B") (PStr "Resume") PNone PNone PNone 0]
  = ((false, msg_too_many_preferred),
     [mkDocument 1 1 (PStr "Resume_A") (PStr "Resume") PNone PNone PNone 0;
      mkDocument 2 1 (PStr "Resume_B") (PStr "Resume") PNone PNone PNone 0]).
Proof.
  split; [vm_compute; lia|].
  apply save_documents_rejects_multiple_preferred. vm_compute. lia.
Defined.

(** ** C7: the batch changes the preferred flag and nothing else *)

(** Claim C7.  On both backends and whatever the outcome, the stored documents
    after a batch save agree with those before on every column but
    [preferred_resume]: id, owner, name, type, upload date, file path and
    content, row by row. *)
Theorem save_documents_only_preferred_changes (b : backend) (u : Z)
  (rows : list doc_row) (db : list document) :
  map doc_frame (snd (save_documents_to_database b u rows db)) = map doc_frame db.
Proof.
  destruct b; simpl;
    unfold sqlite_save_documents_to_database, supabase_save_documents_to_database;
    destruct (Nat.ltb 1 (preferred_count rows)); simpl;
    try reflexivity; apply update_documents_frame.
Qed.

(** ** C6: writes across users *)

Lemma update_documents_keeps_other_owner u rows tbl d :
  In d tbl -> doc_user_id d <> u -> In d (update_documents u rows tbl).
Proof.
  unfold update_documents. revert tbl.
  induction rows as [|r rows IH]; intros tbl Hin Hne; simpl; [exact Hin|].
  apply IH; [|exact Hne].
  unfold update_step. destruct (fetch_owner tbl (row_id r)) as [o|]; [|exact Hin].
  destruct (Z.eqb o u); [|exact Hin].
  unfold set_preferred. apply in_map_iff. exists d. split; [|exact Hin].
  destruct (Z.eqb_spec (doc_user_id d) u); [contradiction|].
  rewrite andb_false_r. reflexivity.
Qed.

Lemma update_step_skip u tbl r :
  fetch_owner tbl (row_id r) <> Some u -> update_step u tbl r = tbl.
Proof.
  unfold update_step. destruct (fetch_owner tbl (row_id r)) as [o|]; [|reflexivity].
  destruct (Z.eqb_spec o u) as [->|]; [congruence | reflexivity].
Qed.

Lemma update_documents_app u rows1 rows2 tbl :
  update_documents u (rows1 ++ rows2) tbl =
  update_documents u rows2 (update_documents u rows1 tbl).
Proof. unfold update_documents. apply fold_left_app. Qed.

Lemma select_file_path_none tbl i u :
  (forall d, In d tbl -> doc_id d = i -> doc_user_id d <> u) ->
  select_file_path tbl i u = None.
Proof.
  induction tbl as [|d tbl IH]; intros H; simpl; [reflexivity|].
  destruct (Z.eqb_spec (doc_id d) i) as [E|E]; simpl.
  - destruct (Z.eqb_spec (doc_user_id d) u) as [E'|E'].
    + exfalso. exact (H d (or_introl eq_refl) E E').
    + apply IH. intros d' Hin. apply H. right. exact Hin.
  - apply IH. intros d' Hin. apply H. right. exact Hin.
Qed.

Lemma grid_ids_in df i : In i (grid_ids df) <-> In (Some i) (map gr_id df).
Proof.
  induction df as [|r df IH]; simpl; [tauto|].
  destruct (gr_id r) as [k|]; simpl.
  - rewrite IH. split; intros [H|H]; auto; left; congruence.
  - rewrite IH. split; [auto|]. intros [H|H]; [discriminate | exact H].
Qed.

Lemma jobs_grid_fold_owner now df tbl j' :
  In j' (fold_left (jobs_grid_step now) df tbl) ->
  (exists j, In j tbl /\ gj_id j' = gj_id j /\ gj_user_id j' = gj_user_id j) \/
  gj_user_id j' = PNone.
Proof.
  revert tbl. induction df as [|r df IH]; intros tbl H; cbn [fold_left] in H.
  - left. exists j'. auto.
  - destruct (IH _ H) as [(j1 & Hin & Hid & Hu)|Hn]; [|right; exact Hn].
    unfold jobs_grid_step in Hin. destruct (gr_id r) as [i|].
    + apply in_map_iff in Hin. destruct Hin as (j & Hj & Hin). left. exists j.
      split; [exact Hin|].
      destruct (Z.eqb (gj_id j) i); subst j1; auto.
    + apply in_app_or in Hin. destruct Hin as [Hin|[<-|[]]]; [left; eauto | right].
      rewrite Hu. reflexivity.
Qed.

Lemma jobs_grid_fold_keep now df tbl j :
  In j tbl ->
  exists j', In j' (fold_left (jobs_grid_step now) df tbl) /\ gj_id j' = gj_id j /\
             gj_user_id j' = gj_user_id j /\ gj_date_added j' = gj_date_added j.
Proof.
  revert tbl j. induction df as [|r df IH]; intros tbl j Hin; cbn [fold_left].
  - exists j. auto.
  - assert (Hstep : exists j1, In j1 (jobs_grid_step now tbl r) /\ gj_id j1 = gj_id j /\
                               gj_user_id j1 = gj_user_id j /\ gj_date_added j1 = gj_date_added j).
    { unfold jobs_grid_step. destruct (gr_id r) as [i|].
      - exists (if Z.eqb (gj_id j) i then set_grid_fields (gr_fields r) j else j).
        split; [apply (in_map (fun j => if Z.eqb (gj_id j) i then set_grid_fields (gr_fields r) j else j)), Hin|].
        destruct (Z.eqb (gj_id j) i); auto.
      - exists j. split; [apply in_or_app; left; exact Hin | auto]. }
    destruct Hstep as (j1 & Hin1 & E1 & E2 & E3).
    destruct (IH _ _ Hin1) as (j' & Hin' & F1 & F2 & F3).
    exists j'. split; [exact Hin'|]. repeat split; congruence.
Qed.

Lemma jobs_grid_fold_other now df tbl x :
  ~ In (Some (gj_id x)) (map gr_id df) -> In x tbl ->
  In x (fold_left (jobs_grid_step now) df tbl).
Proof.
  revert tbl. induction df as [|r df IH]; intros tbl Hn Hin; cbn [fold_left]; [exact Hin|].
  apply IH; [intros H; apply Hn; right; exact H|].
  unfold jobs_grid_step. destruct (gr_id r) as [i|] eqn:Hr.
  - apply in_map_iff. exists x. split; [|exact Hin].
    destruct (Z.eqb_spec (gj_id x) i) as [E|]; [|reflexivity].
    exfalso. apply Hn. left. rewrite Hr, E. reflexivity.
  - apply in_or_app. left. exact Hin.
Qed.

Lemma set_grid_fields_frame f j1 j :
  gj_id j1 = gj_id j -> gj_user_id j1 = gj_user_id j -> gj_date_added j1 = gj_date_added j ->
  set_grid_fields f j1 = set_grid_fields f j.
Proof. intros E1 E2 E3. unfold set_grid_fields. rewrite E1, E2, E3. reflexivity. Qed.

Lemma save_jobs_kept_in jobs_df tbl j :
  In j tbl ->
  In j (filter (fun j => negb (existsb (Z.eqb (gj_id j))
          (filter (fun i => negb (existsb (Z.eqb i) (grid_ids jobs_df))) (map gj_id tbl)))) tbl)
  <-> In (gj_id j) (grid_ids jobs_df).
Proof.
  intros Hin. rewrite filter_In. split.
  - intros [_ Hk]. destruct (existsb (Z.eqb (gj_id j)) (grid_ids jobs_df)) eqn:E.
    + apply existsb_exists in E. destruct E as (k & Hk' & Ek). apply Z.eqb_eq in Ek. subst k. exact Hk'.
    + exfalso. apply negb_true_iff in Hk.
      assert (Hd : existsb (Z.eqb (gj_id j))
                     (filter (fun i => negb (existsb (Z.eqb i) (grid_ids jobs_df))) (map gj_id tbl))
                   = true).
      { apply existsb_exists. exists (gj_id j). split; [|apply Z.eqb_refl].
        apply filter_In. split; [apply in_map, Hin | apply negb_true_iff; exact E]. }
      congruence.
  - intros Hk. split; [exact Hin|]. apply negb_true_iff.
    destruct (existsb _ _) eqn:E; [|reflexivity].
    apply existsb_exists in E. destruct E as (k & Hk' & Ek). apply Z.eqb_eq in Ek. subst k.
    apply filter_In in Hk'. destruct Hk' as [_ Hd]. apply negb_true_iff in Hd.
    assert (Hex : existsb (Z.eqb (gj_id j)) (grid_ids jobs_df) = true)
      by (apply existsb_exists; exists (gj_id j); split; [exact Hk | apply Z.eqb_refl]).
    congruence.
Qed.

(** Claim C6 (code bug).  The Jobs Portal page, open to every signed-in user,
    lists all users' jobs ([jobs_grid_rows]) and saves the edited grid with
    [save_jobs_to_database], which never looks at the session's user: it
    deletes every stored job whose id is missing from the frame and updates
    by id alone.  Hence, on both backends: (1) after a save, every job left
    owned by user [A] has its id in the saved frame, whoever saved it; (2) a
    frame row carrying the id of a stored job [j], with no later row for that
    id, overwrites [j]'s ten edited columns whoever owns [j]; (3) concretely,
    user 1 owns job 10 and user 2 owns job 11; user 2's grid shows both, and
    user 2 saving it without row 10 deletes user 1's job, while saving it
    with row 10's status changed to Rejected rewrites user 1's job. *)
Theorem save_jobs_grid_crosses_users :
  (forall (b : backend) (A : Z) (jobs_df : list grid_row) (now : datetime)
          (tbl : list grid_job) (j' : grid_job),
     In j' (snd (save_jobs_to_database b jobs_df now tbl)) -> gj_user_id j' = PInt A ->
     In (Some (gj_id j')) (map gr_id jobs_df)) /\
  (forall (b : backend) (jobs_df1 : list grid_row) (r : grid_row) (jobs_df2 : list grid_row)
          (now : datetime) (tbl : list grid_job) (j : grid_job),
     In j tbl -> gr_id r = Some (gj_id j) -> ~ In (Some (gj_id j)) (map gr_id jobs_df2) ->
     In (set_grid_fields (gr_fields r) j)
        (snd (save_jobs_to_database b (jobs_df1 ++ r :: jobs_df2) now tbl))) /\
  (let fields company st :=
     mkGridFields (PStr company) (PStr "Engineer") PNone PNone (PStr st) PNone PNone
                  PNone PNone PNone in
   let job10 := mkGridJob 10 (PInt 1) (fields "Acme"%string "Applied"%string)
                          (PStr "2026-10-01 09:00:00") in
   let job11 := mkGridJob 11 (PInt 2) (fields "Initech"%string "Applied"%string)
                          (PStr "2026-10-02 09:00:00") in
   let now := mkDatetime 2026 10 17 12 0 0 in
   forall b : backend,
   jobs_grid_rows [job10; job11] =
     [mkGridRow (Some 11) (gj_fields job11); mkGridRow (Some 10) (gj_fields job10)] /\
   snd (save_jobs_to_database b [mkGridRow (Some 11) (gj_fields job11)] now [job10; job11])
     = [job11] /\
   snd (save_jobs_to_database b
          [mkGridRow (Some 11) (gj_fields job11);
           mkGridRow (Some 10) (fields "Acme"%string "Rejected"%string)] now [job10; job11])
     = [mkGridJob 10 (PInt 1) (fields "Acme"%string "Rejected"%string) (PStr "2026-10-01 09:00:00");
        job11]).
Proof.
  split; [|split].
  - intros b A jobs_df now tbl j' Hin HA.
    assert (Hin' : In j' (fold_left (jobs_grid_step now) jobs_df
              (filter (fun j => negb (existsb (Z.eqb (gj_id j))
                 (filter (fun i => negb (existsb (Z.eqb i) (grid_ids jobs_df))) (map gj_id tbl)))) tbl)))
      by (destruct b; exact Hin).
    destruct (jobs_grid_fold_owner _ _ _ _ Hin') as [(j & Hj & Eid & _)|Hn];
      [|rewrite HA in Hn; discriminate].
    apply grid_ids_in. rewrite Eid.
    assert (Hj0 : In j tbl) by (apply filter_In in Hj; apply Hj).
    apply (save_jobs_kept_in jobs_df tbl j Hj0), Hj.
  - intros b df1 r df2 now tbl j Hin Hr Hn.
    assert (Hk : In j (filter (fun j => negb (existsb (Z.eqb (gj_id j))
                   (filter (fun i => negb (existsb (Z.eqb i) (grid_ids (df1 ++ r :: df2))))
                      (map gj_id tbl)))) tbl)).
    { apply (save_jobs_kept_in _ tbl j Hin). apply grid_ids_in.
      rewrite map_app. apply in_or_app. right. left. exact Hr. }
    enough (H : In (set_grid_fields (gr_fields r) j)
                  (fold_left (jobs_grid_step now) (df1 ++ r :: df2)
                     (filter (fun j => negb (existsb (Z.eqb (gj_id j))
                        (filter (fun i => negb (existsb (Z.eqb i) (grid_ids (df1 ++ r :: df2))))
                           (map gj_id tbl)))) tbl)))
      by (destruct b; exact H).
    rewrite fold_left_app. cbn [fold_left].
    destruct (jobs_grid_fold_keep now df1 _ j Hk) as (j1 & Hin1 & E1 & E2 & E3).
    apply jobs_grid_fold_other; [exact Hn|].
    unfold jobs_grid_step. rewrite Hr. apply in_map_iff. exists j1.
    rewrite E1, Z.eqb_refl. split; [apply set_grid_fields_frame; assumption | exact Hin1].
  - intros fields job10 job11 now b. destruct b; vm_compute; repeat split.
Qed.

(** Extra.  The documents paths do check the owner.  Let [A <> B] and ids
    be primary keys.  (1) A batch save by [B] keeps every document of [A] as
    it is; (2) [delete_document] by [B] on a
    document of [A] reports "not found or access denied", deletes nothing and
    touches no file, without raising; (3) inside a batch, a row whose stored
    owner is not the acting user [B] is skipped: the batch is accepted exactly
    as before and its effect is that of the batch without that row. *)
Theorem cross_user_writes_have_no_effect (b : backend) (A B : Z)
  (db : list document) (fs : list string) :
  A <> B -> NoDup (map doc_id db) ->
  (forall rows d, In d db -> doc_user_id d = A ->
     In d (snd (save_documents_to_database b B rows db))) /\
  (forall i, fetch_owner db i = Some A ->
     delete_document b B i db fs = ((false, msg_not_found), db, fs)) /\
  (forall rows1 r rows2, fetch_owner db (row_id r) <> Some B ->
     (preferred_count (rows1 ++ r :: rows2) <= 1)%nat ->
     save_documents_to_database b B (rows1 ++ r :: rows2) db =
     ((true, msg_documents_updated), update_documents B (rows1 ++ rows2) db)).
Proof.
  intros HAB Hnd. split; [|split].
  - intros rows d Hin HA.
    destruct b; simpl;
      unfold sqlite_save_documents_to_database, supabase_save_documents_to_database;
      destruct (Nat.ltb 1 (preferred_count rows)); simpl; try exact Hin;
      apply update_documents_keeps_other_owner; congruence.
  - intros i Hf. destruct b; simpl.
    + unfold sqlite_delete_document. rewrite select_file_path_none; [reflexivity|].
      intros d Hin Hid. rewrite (fetch_owner_unique db i A d Hnd Hf Hin Hid). exact HAB.
    + unfold supabase_delete_document. rewrite Hf.
      destruct (Z.eqb_spec A B); [contradiction | reflexivity].
  - intros rows1 r rows2 Hown Hcount.
    assert (Hnlt : Nat.ltb 1 (preferred_count (rows1 ++ r :: rows2)) = false)
      by (apply Nat.ltb_ge; exact Hcount).
    assert (Hupd : update_documents B (rows1 ++ r :: rows2) db =
                   update_documents B (rows1 ++ rows2) db).
    { rewrite !update_documents_app.
      change (update_documents B (r :: rows2) (update_documents B rows1 db)) with
        (update_documents B rows2 (update_step B (update_documents B rows1 db) r)).
      rewrite update_step_skip; [reflexivity|].
      rewrite (fetch_owner_frame _ db); [exact Hown|].
      apply update_documents_frame. }
    destruct b; simpl;
      unfold sqlite_save_documents_to_database, supabase_save_documents_to_database;
      rewrite Hnlt, Hupd; reflexivity.
Qed.

Lemma cross_user_writes_have_no_effect_witness :
  (1 <> 2) /\ NoDup (map doc_id [mkDocument 7 1 (PStr "Resume_A") (PStr "Resume") PNone PNone PNone 1]) /\
  delete_document SQLite 2 7
    [mkDocument 7 1 (PStr "Resume_A") (PStr "Resume") PNone PNone PNone 1] []
  = ((false, msg_not_found),
     [mkDocument 7 1 (PStr "Resume_A") (PStr "Resume") PNone PNone PNone 1], []).
Proof.
  assert (Hnd : NoDup (map doc_id [mkDocument 7 1 (PStr "Resume_A") (PStr "Resume") PNone PNone PNone 1]))
    by nodup_ids.
  split; [lia|]. split; [exact Hnd|].
  apply (cross_user_writes_have_no_effect SQLite 1 2 _ [] ltac:(lia) Hnd).
  reflexivity.
Defined.

(** ** C9: uploads are never preferred *)

(** Claim C9.  On both backends, [add_document] appends exactly one row, owned
    by the caller, whose [preferred_resume] is 0, whatever the caller put in
    [document_data] (a ['preferred_resume'] key included). *)
Theorem add_document_not_preferred (b : backend) (u : Z) (document_data : pydict)
  (now : datetime) (db : list document) :
  fst (add_document b u document_data now db) = (true, "Document added successfully!"%string) /\
  exists d, snd (add_document b u document_data now db) = db ++ [d] /\
            doc_user_id d = u /\ preferred_resume d = 0.
Proof.
  destruct b; simpl; unfold sqlite_add_document, supabase_add_document; simpl;
    (split; [reflexivity|]); eexists; repeat split.
Qed.

(** ** C10: the preferred-resume lookup *)

(** Claim C10.  [get_preferred_resume] gives [None] exactly when no stored
    document of the user is a flagged Resume; otherwise a frame of exactly one
    stored row, which belongs to the user, has type ['Resume'] and flag 1. *)
Theorem get_preferred_resume_correct (b : backend) (u : Z) (db : list document) :
  (get_preferred_resume b u db = None <->
   forall d, In d db ->
     ~ (doc_user_id d = u /\ preferred_resume d = 1 /\ document_type d = PStr "Resume"%string)) /\
  (forall frame, get_preferred_resume b u db = Some frame ->
     exists d, frame = [d] /\ In d db /\ doc_user_id d = u /\
               document_type d = PStr "Resume"%string /\ preferred_resume d = 1).
Proof.
  unfold get_preferred_resume.
  destruct (filter (is_preferred_resume_of u) db) as [|d rest] eqn:Hf; simpl.
  - split; [|discriminate]. split; [intros _|reflexivity].
    intros d Hin (Hu & Hp & Ht).
    assert (Hin' : In d (filter (is_preferred_resume_of u) db)).
    { apply filter_In. split; [exact Hin|]. unfold is_preferred_resume_of.
      rewrite Hu, Hp, Ht, Z.eqb_refl, Z.eqb_refl, pyvalue_eqb_refl. reflexivity. }
    rewrite Hf in Hin'. destruct Hin'.
  - assert (Hin : In d (filter (is_preferred_resume_of u) db)) by (rewrite Hf; left; reflexivity).
    apply filter_In in Hin. destruct Hin as [Hin Hok].
    unfold is_preferred_resume_of in Hok.
    apply andb_prop in Hok. destruct Hok as [Hok Ht]. apply andb_prop in Hok.
    destruct Hok as [Hu Hp]. apply Z.eqb_eq in Hu, Hp. apply pyvalue_eqb_true in Ht.
    split.
    + split; [discriminate|]. intros H. exfalso. exact (H d Hin (conj Hu (conj Hp Ht))).
    + intros frame Hfr. injection Hfr as <-. exists d. auto 6.
Qed.

(** ** C3: the backend selector *)



(** ** C8: timestamps come from the clock, in a sortable format *)

Lemma digit_compare a b :
  0 <= a <= 9 -> 0 <= b <= 9 -> Ascii.compare (digit a) (digit b) = Z.compare a b.
Proof.
  intros Ha Hb.
  assert (Ea : a = 0 \/ a = 1 \/ a = 2 \/ a = 3 \/ a = 4 \/ a = 5 \/ a = 6 \/ a = 7 \/ a = 8 \/ a = 9)
    by lia.
  assert (Eb : b = 0 \/ b = 1 \/ b = 2 \/ b = 3 \/ b = 4 \/ b = 5 \/ b = 6 \/ b = 7 \/ b = 8 \/ b = 9)
    by lia.
  clear Ha Hb.
  destruct Ea as [->|[->|[->|[->|[->|[->|[->|[->|[->| ->]]]]]]]]];
  destruct Eb as [->|[->|[->|[->|[->|[->|[->|[->|[->| ->]]]]]]]]]; vm_compute; reflexivity.
Qed.

Lemma compare_digit_cons a b s1 s2 :
  0 <= a <= 9 -> 0 <= b <= 9 ->
  String.compare (String (digit a) s1) (String (digit b) s2) =
  match Z.compare a b with Eq => String.compare s1 s2 | c => c end.
Proof. intros Ha Hb. cbn [String.compare]. rewrite (digit_compare a b Ha Hb). reflexivity. Qed.

Lemma compare_same_cons c s1 s2 :
  String.compare (String c s1) (String c s2) = String.compare s1 s2.
Proof.
  cbn [String.compare]. unfold Ascii.compare. rewrite N.compare_refl. reflexivity.
Qed.

Lemma mod10_bound x : 0 <= x mod 10 <= 9.
Proof. pose proof (Z.mod_pos_bound x 10). lia. Qed.

Local Opaque digit.

Lemma strftime_ts_compare t1 t2 :
  String.compare (strftime_ts t1) (strftime_ts t2) = lex_compare (ts_digits t1) (ts_digits t2).
Proof.
  unfold strftime_ts, pad2, pad4, ts_digits. cbn [String.append lex_compare].
  repeat first
    [ rewrite compare_digit_cons by apply mod10_bound
    | rewrite compare_same_cons ].
  cbn [String.compare].
  repeat match goal with
         | |- match ?c with _ => _ end = match ?c with _ => _ end => destruct c; [|reflexivity|reflexivity]
         end.
  reflexivity.
Qed.

Local Transparent digit.

Lemma digits_value_bound l :
  Forall (fun d => 0 <= d <= 9) l -> 0 <= digits_value l < 10 ^ Z.of_nat (List.length l).
Proof.
  induction l as [|d l IH]; intros H; [simpl; lia|].
  inversion H as [|? ? Hd Hl]; subst. specialize (IH Hl).
  cbn [digits_value List.length].
  rewrite Nat2Z.inj_succ, Z.pow_succ_r by lia. nia.
Qed.

Lemma lex_compare_value l1 l2 :
  List.length l1 = List.length l2 ->
  Forall (fun d => 0 <= d <= 9) l1 -> Forall (fun d => 0 <= d <= 9) l2 ->
  lex_compare l1 l2 = Z.compare (digits_value l1) (digits_value l2).
Proof.
  revert l2. induction l1 as [|a l1 IH]; intros [|b l2] Hlen H1 H2;
    cbn [lex_compare digits_value List.length] in *; try discriminate; [reflexivity|].
  injection Hlen as Hlen.
  inversion H1 as [|? ? Ha Hl1]; inversion H2 as [|? ? Hb Hl2]; subst.
  pose proof (digits_value_bound l1 Hl1) as B1.
  pose proof (digits_value_bound l2 Hl2) as B2.
  rewrite <- Hlen in B2 |- *.
  set (p := 10 ^ Z.of_nat (List.length l1)) in *.
  destruct (Z.compare_spec a b) as [->|Hlt|Hgt].
  - rewrite (IH l2 Hlen Hl1 Hl2). symmetry.
    destruct (Z.compare_spec (digits_value l1) (digits_value l2));
      [apply Z.compare_eq_iff | apply Z.compare_lt_iff | apply Z.compare_gt_iff]; lia.
  - symmetry. apply Z.compare_lt_iff. nia.
  - symmetry. apply Z.compare_gt_iff. nia.
Qed.

Lemma two_digits n : 0 <= n < 100 -> n / 10 mod 10 * 10 + n mod 10 = n.
Proof.
  intros H.
  rewrite (Z.mod_small (n / 10)) by (split; [apply Z.div_pos | apply Z.div_lt_upper_bound]; lia).
  pose proof (Z.div_mod n 10 ltac:(lia)). lia.
Qed.

Lemma four_digits n :
  0 <= n < 10000 ->
  n / 1000 mod 10 * 1000 + n / 100 mod 10 * 100 + n / 10 mod 10 * 10 + n mod 10 = n.
Proof.
  intros H.
  replace (n / 1000) with (n / 10 / 10 / 10) by (rewrite !Z.div_div by lia; reflexivity).
  replace (n / 100) with (n / 10 / 10) by (rewrite !Z.div_div by lia; reflexivity).
  assert (Hq3 : 0 <= n / 10 / 10 / 10 < 10).
  { rewrite !Z.div_div by lia. split; [apply Z.div_pos | apply Z.div_lt_upper_bound]; lia. }
  rewrite (Z.mod_small (n / 10 / 10 / 10)) by exact Hq3.
  pose proof (Z.div_mod n 10 ltac:(lia)).
  pose proof (Z.div_mod (n / 10) 10 ltac:(lia)).
  pose proof (Z.div_mod (n / 10 / 10) 10 ltac:(lia)).
  lia.
Qed.

Lemma ts_digits_value t :
  clock_valid t -> digits_value (ts_digits t) = clock_value t.
Proof.
  intros (Hy & Hm & Hd & Hh & Hmi & Hs).
  pose proof (four_digits (dt_year t) ltac:(lia)).
  pose proof (two_digits (dt_month t) ltac:(lia)).
  pose proof (two_digits (dt_day t) ltac:(lia)).
  pose proof (two_digits (dt_hour t) ltac:(lia)).
  pose proof (two_digits (dt_minute t) ltac:(lia)).
  pose proof (two_digits (dt_second t) ltac:(lia)).
  unfold ts_digits, clock_value. simpl digits_value.
  lia.
Qed.

Lemma ts_digits_ok t : Forall (fun d => 0 <= d <= 9) (ts_digits t).
Proof. unfold ts_digits. repeat constructor; apply mod10_bound. Qed.

(** The text order of two timestamps is the order of the clock readings. *)
Lemma strftime_ts_order t1 t2 :
  clock_valid t1 -> clock_valid t2 ->
  String.compare (strftime_ts t1) (strftime_ts t2) = Z.compare (clock_value t1) (clock_value t2).
Proof.
  intros H1 H2. rewrite strftime_ts_compare.
  rewrite lex_compare_value by (reflexivity || apply ts_digits_ok).
  rewrite (ts_digits_value t1 H1), (ts_digits_value t2 H2). reflexivity.
Qed.

(** Claim C8.  On both backends the timestamp each write stores is the text
    [strftime("%Y-%m-%d %H:%M:%S")] of a clock reading taken by the data layer,
    whatever the caller passed ([job_data], [document_data], [goals],
    [profile_data]): [date_added] of [add_job], [upload_date] of
    [add_document], [submission_date] of [add_career_goals], and
    [last_updated_date] of the user's profile row after [update_user_profile].
    For two jobs added one after the other, with clock readings [t1] then [t2]
    where [t2] is not earlier than [t1], the stored texts are in non-decreasing
    text order. *)
Theorem data_layer_timestamps (b : backend) (u : Z) (t1 t2 : datetime) :
  clock_valid t1 -> clock_valid t2 -> clock_value t1 <= clock_value t2 ->
  (forall job_data now tbl, exists j,
     snd (add_job b u job_data now tbl) = tbl ++ [j] /\ date_added j = PStr (strftime_ts now)) /\
  (forall document_data now tbl, exists d,
     snd (add_document b u document_data now tbl) = tbl ++ [d] /\
     upload_date d = PStr (strftime_ts now)) /\
  (forall goals now tbl, exists g,
     snd (add_career_goals b u goals now tbl) = tbl ++ [g] /\
     submission_date g = PStr (strftime_ts now)) /\
  (forall profile_data now1 now2 tbl p,
     In p (snd (update_user_profile b u profile_data now1 now2 tbl)) -> prof_user_id p = u ->
     last_updated_date p = PStr (strftime_ts now1) \/ last_updated_date p = PStr (strftime_ts now2)) /\
  (forall data1 data2 tbl, exists j1 j2,
     snd (add_job b u data2 t2 (snd (add_job b u data1 t1 tbl))) = tbl ++ [j1; j2] /\
     date_added j1 = PStr (strftime_ts t1) /\ date_added j2 = PStr (strftime_ts t2) /\
     String.leb (strftime_ts t1) (strftime_ts t2) = true).
Proof.
  intros V1 V2 Hle.
  split; [|split; [|split; [|split]]].
  - intros job_data now tbl. destruct b; eexists; split; reflexivity.
  - intros document_data now tbl. destruct b; eexists; split; reflexivity.
  - intros goals now tbl. destruct b; eexists; split; reflexivity.
  - intros profile_data now1 now2 tbl p Hin Hu. unfold update_user_profile in Hin.
    destruct (existsb (fun p => Z.eqb (prof_user_id p) u) tbl) eqn:Hex.
    + simpl in Hin. apply in_map_iff in Hin. destruct Hin as (p0 & <- & _).
      destruct (Z.eqb (prof_user_id p0) u) eqn:E; [left; reflexivity|].
      simpl in Hu. exfalso. apply Z.eqb_neq in E. contradiction.
    + assert (Hold : ~ In p tbl).
      { intros Hin'. assert (Ht : existsb (fun p => Z.eqb (prof_user_id p) u) tbl = true)
          by (apply existsb_exists; exists p; split; [exact Hin' | apply Z.eqb_eq, Hu]).
        congruence. }
      destruct b; simpl in Hin; apply in_app_or in Hin;
        (destruct Hin as [Hin|[<-|[]]]; [contradiction|]).
      * right. reflexivity.
      * left. reflexivity.
  - intros data1 data2 tbl. destruct b; simpl; rewrite <- app_assoc; simpl;
      (eexists; eexists; split; [reflexivity|]);
      (split; [reflexivity|]); (split; [reflexivity|]);
      unfold String.leb; rewrite (strftime_ts_order t1 t2 V1 V2);
      destruct (Z.compare_spec (clock_value t1) (clock_value t2)); auto; lia.
Qed.

Lemma data_layer_timestamps_witness :
  clock_valid (mkDatetime 2026 10 17 9 59 59) /\ clock_valid (mkDatetime 2026 10 17 10 0 0) /\
  String.leb (strftime_ts (mkDatetime 2026 10 17 9 59 59))
             (strftime_ts (mkDatetime 2026 10 17 10 0 0)) = true.
Proof.
  assert (V1 : clock_valid (mkDatetime 2026 10 17 9 59 59)) by (unfold clock_valid; simpl; lia).
  assert (V2 : clock_valid (mkDatetime 2026 10 17 10 0 0)) by (unfold clock_valid; simpl; lia).
  split; [exact V1|]. split; [exact V2|].
  destruct (data_layer_timestamps SQLite 1 _ _ V1 V2 ltac:(unfold clock_value; simpl; lia))
    as (_ & _ & _ & _ & H).
  destruct (H [] [] []) as (j1 & j2 & _ & _ & _ & Hleb). exact Hleb.
Defined.

(** ** C4: statistics on the two backends *)

(** Claim C4 (divergence).  On the spec's fixture (statuses Applied 3,
    Rejected 2, Interviewing 1) both backends report total 6 and that exact
    status mapping.  For a job stored with no status ([status] NULL, as
    [add_job] stores when [job_data] has no ['status'] key), SQLite's
    [GROUP BY status] reports a [None] group of count 1 while pandas'
    [value_counts()] drops it, so the two backends return different
    [status_counts] for the same stored jobs. *)
Theorem get_user_stats_backends_diverge :
  let job_with s := mkJob 1 1 (PStr "Acme") PNone PNone PNone s PNone PNone
                          (PStr "2026-10-15 09:00:00") PNone PNone PNone in
  let fixture := map job_with
    [PStr "Applied"; PStr "Applied"; PStr "Applied"; PStr "Rejected"; PStr "Rejected";
     PStr "Interviewing"] in
  let now := mkDatetime 2026 10 17 12 0 0 in
  (total_applications (sqlite_get_user_stats 1 now fixture) = 6%nat /\
   total_applications (supabase_get_user_stats 1 now fixture) = 6%nat /\
   (forall k, counts_get (status_counts (sqlite_get_user_stats 1 now fixture)) k =
              counts_get (status_counts (supabase_get_user_stats 1 now fixture)) k) /\
   counts_get (status_counts (sqlite_get_user_stats 1 now fixture)) (PStr "Applied") = Some 3%nat /\
   counts_get (status_counts (sqlite_get_user_stats 1 now fixture)) (PStr "Rejected") = Some 2%nat /\
   counts_get (status_counts (sqlite_get_user_stats 1 now fixture)) (PStr "Interviewing") = Some 1%nat /\
   List.length (status_counts (sqlite_get_user_stats 1 now fixture)) = 3%nat) /\
  (counts_get (status_counts (sqlite_get_user_stats 1 now [job_with PNone])) PNone = Some 1%nat /\
   counts_get (status_counts (supabase_get_user_stats 1 now [job_with PNone])) PNone = None).
Proof.
  intros job_with fixture now.
  split; [|vm_compute; split; reflexivity].
  split; [vm_compute; reflexivity|]. split; [vm_compute; reflexivity|].
  split; [|vm_compute; repeat split].
  intros k. vm_compute. reflexivity.
Qed.

(** ** C5: deleting users *)

(** Claim C5 (code bug).  The SQLite schema of [init_db] declares the
    [user_id] foreign keys of [jobs], [documents], [user_profile] and
    [career_goals] without [ON DELETE CASCADE], which the hosted schema of
    create_supabase_tables.py does declare on all four, and no connection
    enables [PRAGMA foreign_keys].  Hence (1) [save_users_to_database], the
    path that deletes users, leaves those four tables exactly as they were,
    whether it commits or rolls back; (2) concretely, with users 1 and 2 each
    owning a job, saving a users frame that no longer lists user 1 succeeds
    and removes user 1 from [users], but user 1's job is still stored. *)
Theorem save_users_deletion_does_not_cascade :
  (forall (users_df : list users_df_row) (now : datetime) (db : database),
     jobs (snd (save_users_to_database users_df now db)) = jobs db /\
     documents (snd (save_users_to_database users_df now db)) = documents db /\
     user_profile (snd (save_users_to_database users_df now db)) = user_profile db /\
     career_goals (snd (save_users_to_database users_df now db)) = career_goals db) /\
  (let db := {| users := [mkUser 1 (PStr "alice") (PStr "h1") PNone (PStr "2026-01-01 00:00:00");
                          mkUser 2 (PStr "bob") (PStr "h2") PNone (PStr "2026-01-01 00:00:00")];
                jobs := [mkJob 10 1 (PStr "Acme") PNone PNone PNone (PStr "Applied") PNone PNone
                               (PStr "2026-10-01 09:00:00") PNone PNone PNone;
                         mkJob 11 2 (PStr "Initech") PNone PNone PNone (PStr "Applied") PNone PNone
                               (PStr "2026-10-01 09:00:00") PNone PNone PNone];
                documents := []; user_profile := []; career_goals := [] |} in
   let df := [mkUsersDfRow (Some 2) (PStr "bob") (PStr "h2") PNone (PStr "2026-01-01 00:00:00")] in
   let res := save_users_to_database df (mkDatetime 2026 10 17 12 0 0) db in
   fst (fst res) = true /\
   existsb (fun v => Z.eqb (user_id_of v) 1) (users (snd res)) = false /\
   existsb (fun j => Z.eqb (job_user_id j) 1) (jobs (snd res)) = true).
Proof.
  split.
  - intros users_df now db. unfold save_users_to_database.
    destruct (fold_left (users_step now) users_df _); simpl; repeat split.
  - vm_compute. repeat split.
Qed.

(** * Further properties of the data layer *)

(** ** Per-user reads *)

Lemma sql_le_total a b : sql_le a b = true \/ sql_le b a = true.
Proof.
  destruct a, b; simpl; auto; try apply String.leb_total;
    rewrite !Z.leb_le; lia.
Qed.

Lemma insert_desc_perm {A} (key : A -> pyvalue) x l :
  Permutation (insert_desc key x l) (x :: l).
Proof.
  induction l as [|y l IH]; simpl; [reflexivity|].
  destruct (sql_le (key y) (key x)); [reflexivity|].
  eapply perm_trans; [apply perm_skip, IH | apply perm_swap].
Qed.

Lemma order_by_desc_perm {A} (key : A -> pyvalue) l :
  Permutation (order_by_desc key l) l.
Proof.
  induction l as [|x l IH]; simpl; [reflexivity|].
  eapply perm_trans; [apply insert_desc_perm | apply perm_skip, IH].
Qed.

Lemma insert_desc_sorted {A} (key : A -> pyvalue) x l :
  Sorted (fun a b => sql_le (key b) (key a) = true) l ->
  Sorted (fun a b => sql_le (key b) (key a) = true) (insert_desc key x l).
Proof.
  induction l as [|y l IH]; simpl; intros H; [repeat constructor|].
  destruct (sql_le (key y) (key x)) eqn:E.
  - constructor; [exact H | constructor; exact E].
  - inversion H as [|? ? Hs Hhd]; subst.
    assert (E' : sql_le (key x) (key y) = true)
      by (destruct (sql_le_total (key y) (key x)); congruence).
    constructor; [apply IH, Hs|].
    destruct l as [|z l]; simpl; [constructor; exact E'|].
    inversion Hhd; subst.
    destruct (sql_le (key z) (key x)); constructor; assumption.
Qed.

Lemma order_by_desc_sorted {A} (key : A -> pyvalue) l :
  Sorted (fun a b => sql_le (key b) (key a) = true) (order_by_desc key l).
Proof.
  induction l as [|x l IH]; simpl; [constructor|]. apply insert_desc_sorted, IH.
Qed.

(** Extra.  Each per-user read of the SQLite path returns exactly the rows
    of that user (the same rows, in some order) and lists them newest first
    by their date column: jobs by [date_added], documents by [upload_date],
    career goals by [submission_date]. *)
Theorem sqlite_reads_user_rows_newest_first (u : Z) (jt : list job)
  (dt : list document) (gt : list career_goal) :
  Permutation (get_user_jobs u jt) (filter (fun j => Z.eqb (job_user_id j) u) jt) /\
  Sorted (fun a b => sql_le (date_added b) (date_added a) = true) (get_user_jobs u jt) /\
  Permutation (get_user_documents u dt) (filter (fun d => Z.eqb (doc_user_id d) u) dt) /\
  Sorted (fun a b => sql_le (upload_date b) (upload_date a) = true) (get_user_documents u dt) /\
  Permutation (get_user_career_goals u gt) (filter (fun g => Z.eqb (goal_user_id g) u) gt) /\
  Sorted (fun a b => sql_le (submission_date b) (submission_date a) = true)
    (get_user_career_goals u gt).
Proof.
  unfold get_user_jobs, get_user_documents, get_user_career_goals.
  repeat split; apply order_by_desc_perm || apply order_by_desc_sorted.
Qed.

Lemma order_by_desc_new_first {A} (key : A -> pyvalue) n l :
  (forall y, In y l -> sql_le (key n) (key y) = false) ->
  fold_right (insert_desc key) [n] l = n :: order_by_desc key l.
Proof.
  induction l as [|y l IH]; intros H; simpl; [reflexivity|].
  rewrite IH by (intros z Hz; apply H; right; exact Hz). simpl.
  rewrite (H y (or_introl eq_refl)). reflexivity.
Qed.

Lemma strftime_ts_later t1 t2 :
  clock_valid t1 -> clock_valid t2 -> clock_value t1 < clock_value t2 ->
  sql_le (PStr (strftime_ts t2)) (PStr (strftime_ts t1)) = false.
Proof.
  intros H1 H2 Hlt. simpl. unfold String.leb.
  rewrite (strftime_ts_order t2 t1 H2 H1).
  replace (clock_value t2 ?= clock_value t1) with Gt by (symmetry; apply Z.compare_gt_iff; lia).
  reflexivity.
Qed.

(** Extra.  A job added by [add_job] on either backend heads the SQLite
    listing [get_user_jobs] when its clock reading is later than that of every
    stored job of the user (each stamped by [add_job] from a valid clock);
    the rest of the listing is the user's earlier jobs. *)
Theorem add_job_listed_first (b : backend) (u : Z) (job_data : pydict) (now : datetime)
  (tbl : list job) :
  clock_valid now ->
  (forall j, In j tbl -> job_user_id j = u ->
     exists t, clock_valid t /\ date_added j = PStr (strftime_ts t) /\
               clock_value t < clock_value now) ->
  get_user_jobs u (snd (add_job b u job_data now tbl))
  = new_job_row u job_data now tbl :: get_user_jobs u tbl.
Proof.
  intros Hnow Hold. destruct b; simpl; unfold get_user_jobs, order_by_desc;
    rewrite filter_app; simpl; rewrite Z.eqb_refl, fold_right_app; simpl;
    apply order_by_desc_new_first; intros y Hy; apply filter_In in Hy;
    destruct Hy as [Hy Hu]; apply Z.eqb_eq in Hu;
    destruct (Hold y Hy Hu) as (t & Ht & Hd & Hlt); rewrite Hd;
    apply (strftime_ts_later t now Ht Hnow Hlt).
Qed.

Lemma add_job_listed_first_witness :
  let tbl := [mkJob 1 7 (PStr "Acme") PNone PNone PNone (PStr "Applied") PNone PNone
                    (PStr (strftime_ts (mkDatetime 2026 10 1 9 0 0))) PNone PNone PNone] in
  let now := mkDatetime 2026 10 17 12 0 0 in
  get_user_jobs 7 (snd (add_job SQLite 7 [("company_name", PStr "Initech")]%string now tbl))
  = new_job_row 7 [("company_name", PStr "Initech")]%string now tbl :: get_user_jobs 7 tbl.
Proof.
  intros tbl now. apply add_job_listed_first.
  - unfold clock_valid; simpl; lia.
  - intros j [<-|[]] _. exists (mkDatetime 2026 10 1 9 0 0).
    split; [unfold clock_valid; simpl; lia|]. split; [reflexivity|]. vm_compute. reflexivity.
Defined.

(** ** Registration and login *)

Lemma find_none_existsb {A} (f : A -> bool) l : existsb f l = false -> find f l = None.
Proof.
  induction l as [|x l IH]; simpl; [reflexivity|].
  destruct (f x); [discriminate | exact IH].
Qed.

Lemma find_app_none {A} (f : A -> bool) l1 l2 :
  find f l1 = None -> find f (l1 ++ l2) = find f l2.
Proof.
  induction l1 as [|x l1 IH]; simpl; [reflexivity|].
  destruct (f x); [discriminate | exact IH].
Qed.

Lemma register_success h n p e now tbl msg tbl' :
  sqlite_register_user h n p e now tbl = ((true, msg), tbl') ->
  msg = msg_registered /\ truthy n = true /\ truthy p = true /\
  existsb (fun v => pyvalue_eqb (username v) (PStr n)) tbl = false /\
  tbl' = tbl ++ [new_user_row h n p e now tbl] /\ users_constraints_ok tbl' = true.
Proof.
  unfold sqlite_register_user.
  destruct (truthy n), (truthy p); simpl; try (intros H; inversion H; fail).
  destruct (existsb _ tbl) eqn:Hu; [intros H; inversion H|].
  destruct (match e with Some _ => _ | None => false end); [intros H; inversion H|].
  destruct (users_constraints_ok _) eqn:Hc; intros H; inversion H; subst; auto 7.
Qed.

(** Extra.  After a successful registration, [verify_user] with the same
    username and password answers ["success"] with the id of the inserted row,
    and with any password of a different hash answers ["wrong_password"]: the
    username was free before, so the first row found is the new one. *)
Theorem register_then_verify (h : string -> string) (user_name password : string)
  (email_in : option string) (now : datetime) (tbl tbl' : list user_row) (msg : string) :
  sqlite_register_user h user_name password email_in now tbl = ((true, msg), tbl') ->
  sqlite_verify_user h user_name password tbl'
    = (true, "success"%string, Some (PInt (next_rowid user_id_of tbl))) /\
  (forall other, h other <> h password ->
     sqlite_verify_user h user_name other tbl' = (false, "wrong_password"%string, None)).
Proof.
  intros Hr. destruct (register_success _ _ _ _ _ _ _ _ Hr) as (_ & _ & _ & Hfree & -> & _).
  unfold sqlite_verify_user.
  rewrite (find_app_none _ _ _ (find_none_existsb _ _ Hfree)). cbv beta iota zeta delta [find new_user_row pyvalue_eqb username password_hash user_id_of].
  rewrite !String.eqb_refl. split.
  - reflexivity.
  - intros other Hne. destruct (String.eqb_spec (h other) (h password)); [contradiction|].
    reflexivity.
Qed.

Lemma register_then_verify_witness :
  let h := fun s : string => ("sha256:" ++ s)%string in
  sqlite_register_user h "alice" "secret1" None (mkDatetime 2026 10 17 12 0 0) []
    = ((true, msg_registered),
       [new_user_row h "alice" "secret1" None (mkDatetime 2026 10 17 12 0 0) []]) /\
  sqlite_verify_user h "alice" "secret1"
    [new_user_row h "alice" "secret1" None (mkDatetime 2026 10 17 12 0 0) []]
    = (true, "success"%string, Some (PInt 1)).
Proof.
  intros h. split; [vm_compute; reflexivity|].
  apply (register_then_verify h "alice" "secret1" None (mkDatetime 2026 10 17 12 0 0) []
           _ msg_registered).
  vm_compute. reflexivity.
Defined.

Lemma pyvalue_eqb_neq a b : a <> b -> pyvalue_eqb a b = false.
Proof.
  intros Hne. destruct (pyvalue_eqb a b) eqn:E; [|reflexivity].
  apply pyvalue_eqb_true in E. contradiction.
Qed.

Lemma no_dup_values_snoc l x :
  no_dup_values l = true -> ~ In x l -> no_dup_values (l ++ [x]) = true.
Proof.
  induction l as [|y l IH]; simpl; intros Hnd Hx; [reflexivity|].
  apply andb_true_iff in Hnd. destruct Hnd as [Hy Hnd].
  rewrite existsb_app, IH by tauto. simpl.
  rewrite (pyvalue_eqb_neq y x) by (intros ->; tauto).
  apply negb_true_iff in Hy. rewrite Hy. reflexivity.
Qed.

Lemma no_dup_values_snoc_in l x : In x l -> no_dup_values (l ++ [x]) = false.
Proof.
  induction l as [|y l IH]; simpl; [tauto|]. intros [->|Hx].
  - rewrite existsb_app. simpl. rewrite pyvalue_eqb_refl, orb_true_r. reflexivity.
  - rewrite IH by exact Hx. apply andb_false_r.
Qed.

Lemma existsb_false_forall {A} (f : A -> bool) l :
  (forall x, In x l -> f x = false) -> existsb f l = false.
Proof.
  induction l as [|x l IH]; simpl; intros H; [reflexivity|].
  rewrite (H x (or_introl eq_refl)), IH by (intros y Hy; apply H; right; exact Hy).
  reflexivity.
Qed.

Lemma truthy_length s : (6 <= py_len s)%nat -> truthy s = true.
Proof. destruct s; simpl; [lia | reflexivity]. Qed.

(** A registration with a free username and a blank email while no stored
    user has a blank email goes through. *)
Lemma register_blank_email_first h n p now tbl :
  users_constraints_ok tbl = true -> truthy n = true -> truthy p = true ->
  (forall v, In v tbl -> username v <> PStr n) ->
  (forall v, In v tbl -> email v <> PStr ""%string) ->
  sqlite_register_user h n p (Some ""%string) now tbl
  = ((true, msg_registered), tbl ++ [new_user_row h n p (Some ""%string) now tbl]).
Proof.
  intros Hc Hn Hp Hu He. unfold sqlite_register_user. rewrite Hn, Hp. simpl.
  rewrite existsb_false_forall
    by (intros v Hv; apply pyvalue_eqb_neq, Hu, Hv).
  unfold users_constraints_ok in *.
  apply andb_true_iff in Hc. destruct Hc as [Hc He2]. apply andb_true_iff in Hc.
  destruct Hc as [Hf Hu2].
  rewrite !map_app, forallb_app, filter_app, Hf. simpl.
  rewrite no_dup_values_snoc, no_dup_values_snoc; [reflexivity| exact He2 | | exact Hu2 |].
  - intros Hin. apply filter_In in Hin. destruct Hin as [Hin _].
    apply in_map_iff in Hin. destruct Hin as (v & Hv & Hin). exact (He v Hin Hv).
  - intros Hin. apply in_map_iff in Hin. destruct Hin as (v & Hv & Hin). exact (Hu v Hin Hv).
Qed.

(** Once a stored user has the blank email, SQLite's [email UNIQUE] rejects
    every later registration with a blank email, and nothing is inserted. *)
Lemma register_blank_email_conflict h n p now tbl :
  truthy n = true -> truthy p = true ->
  (forall v, In v tbl -> username v <> PStr n) ->
  In (PStr ""%string) (map email tbl) ->
  sqlite_register_user h n p (Some ""%string) now tbl = ((false, msg_email_constraint), tbl).
Proof.
  intros Hn Hp Hu He. unfold sqlite_register_user. rewrite Hn, Hp. simpl.
  rewrite existsb_false_forall
    by (intros v Hv; apply pyvalue_eqb_neq, Hu, Hv).
  unfold users_constraints_ok. rewrite !map_app, filter_app. simpl.
  rewrite (no_dup_values_snoc_in (filter _ (map email tbl))); [rewrite andb_false_r; reflexivity|].
  apply filter_In. split; [exact He | reflexivity].
Qed.

(** Extra.  The register form hands [register_user] the email field as typed,
    [""] when left blank, and [if email:] then skips the email lookup.  On the
    SQLite path the first blank-email registration succeeds and stores the
    email [""]; a second one, with another free username, fails with
    ["Database error: UNIQUE constraint failed: users.email"] and inserts
    nothing.  A password of fewer than six characters (code points, not
    bytes) is refused by the form before [register_user] runs. *)
Theorem register_form_second_blank_email_rejected (h : string -> string)
  (u1 u2 pw1 pw2 : string) (now1 now2 : datetime) (tbl : list user_row) :
  users_constraints_ok tbl = true ->
  (forall v, In v tbl -> email v <> PStr ""%string) ->
  (forall v, In v tbl -> username v <> PStr u1 /\ username v <> PStr u2) ->
  u1 <> ""%string -> u2 <> ""%string -> u1 <> u2 ->
  (6 <= py_len pw1)%nat -> (6 <= py_len pw2)%nat ->
  register_form_submit h u1 pw1 pw1 ""%string now1 tbl
  = (Some (true, msg_registered), tbl ++ [new_user_row h u1 pw1 (Some ""%string) now1 tbl]) /\
  register_form_submit h u2 pw2 pw2 ""%string now2 (tbl ++ [new_user_row h u1 pw1 (Some ""%string) now1 tbl])
  = (Some (false, msg_email_constraint), tbl ++ [new_user_row h u1 pw1 (Some ""%string) now1 tbl]) /\
  (forall pw e, (py_len pw < 6)%nat -> register_form_submit h u1 pw pw e now1 tbl = (None, tbl)).
Proof.
  intros Hc He Hu Hu1 Hu2 Hne Hl1 Hl2. unfold register_form_submit.
  rewrite !String.eqb_refl. simpl negb. cbv iota.
  split; [|split].
  - destruct (Nat.ltb_spec (py_len pw1) 6) as [|_]; [lia|].
    rewrite register_blank_email_first; try assumption; [reflexivity | | apply truthy_length, Hl1 |].
    + unfold truthy. rewrite (proj2 (String.eqb_neq _ _) Hu1). reflexivity.
    + intros v Hv. apply (Hu v Hv).
  - destruct (Nat.ltb_spec (py_len pw2) 6) as [|_]; [lia|].
    rewrite register_blank_email_conflict; [reflexivity | | apply truthy_length, Hl2 | |].
    + unfold truthy. rewrite (proj2 (String.eqb_neq _ _) Hu2). reflexivity.
    + intros v Hv. apply in_app_or in Hv. destruct Hv as [Hv|[<-|[]]]; [apply (Hu v Hv)|].
      simpl. intros E. injection E as E. apply Hne, E.
    + rewrite map_app. apply in_or_app. right. left. reflexivity.
  - intros pw e Hl. rewrite String.eqb_refl. simpl negb. cbv iota.
    destruct (Nat.ltb_spec (py_len pw) 6) as [_|]; [reflexivity | lia].
Qed.

Lemma register_form_second_blank_email_rejected_witness :
  let h := fun s : string => ("sha256:" ++ s)%string in
  let now := mkDatetime 2026 10 17 12 0 0 in
  register_form_submit h "alice" "secret1" "secret1" ""%string now []
  = (Some (true, msg_registered), [] ++ [new_user_row h "alice" "secret1" (Some ""%string) now []]) /\
  register_form_submit h "bob" "hunter22" "hunter22" ""%string now
    ([] ++ [new_user_row h "alice" "secret1" (Some ""%string) now []])
  = (Some (false, msg_email_constraint),
     [] ++ [new_user_row h "alice" "secret1" (Some ""%string) now []]) /\
  register_form_submit h "alice" "ééé" "ééé" ""%string now [] = (None, []).
Proof.
  intros h now.
  destruct (register_form_second_blank_email_rejected h "alice" "bob" "secret1" "hunter22"
              now now [] eq_refl (fun v Hv => match Hv with end)
              (fun v Hv => match Hv with end) ltac:(discriminate) ltac:(discriminate)
              ltac:(discriminate) ltac:(apply Nat.leb_le; reflexivity)
              ltac:(apply Nat.leb_le; reflexivity)) as (H1 & H2 & H3).
  split; [exact H1|]. split; [exact H2|].
  apply H3. apply Nat.ltb_lt. reflexivity.
Defined.

(** ** Document upload and delete *)

Lemma fold_max_bound {A} (key : A -> Z) l acc :
  acc <= fold_left (fun m r => Z.max m (key r)) l acc /\
  (forall r, In r l -> key r <= fold_left (fun m r => Z.max m (key r)) l acc).
Proof.
  revert acc. induction l as [|x l IH]; intros acc; simpl; [split; [lia | tauto]|].
  destruct (IH (Z.max acc (key x))) as [H1 H2]. split; [lia|].
  intros r [<-|Hr]; [lia | apply H2, Hr].
Qed.

Lemma next_rowid_fresh {A} (key : A -> Z) (tbl : list A) r :
  In r tbl -> key r < next_rowid key tbl.
Proof.
  intros Hr. unfold next_rowid. pose proof (proj2 (fold_max_bound key tbl 0) r Hr). lia.
Qed.

Lemma filter_all_true {A} (f : A -> bool) l :
  (forall x, In x l -> f x = true) -> filter f l = l.
Proof.
  induction l as [|x l IH]; simpl; intros H; [reflexivity|].
  rewrite (H x (or_introl eq_refl)), IH by (intros y Hy; apply H; right; exact Hy).
  reflexivity.
Qed.

Lemma select_file_path_app_fresh tbl d k u :
  (forall x, In x tbl -> doc_id x <> k) -> doc_id d = k -> doc_user_id d = u ->
  select_file_path (tbl ++ [d]) k u = Some (file_path d).
Proof.
  intros Hold Hid Hu. induction tbl as [|x tbl IH]; simpl.
  - rewrite Hid, Hu, !Z.eqb_refl. reflexivity.
  - rewrite (proj2 (Z.eqb_neq _ _) (Hold x (or_introl eq_refl))). simpl.
    apply IH. intros y Hy. apply Hold. right. exact Hy.
Qed.

Lemma fetch_owner_app_fresh tbl d k :
  (forall x, In x tbl -> doc_id x <> k) -> doc_id d = k ->
  fetch_owner (tbl ++ [d]) k = Some (doc_user_id d).
Proof.
  intros Hold Hid. induction tbl as [|x tbl IH]; simpl.
  - rewrite Hid, Z.eqb_refl. reflexivity.
  - rewrite (proj2 (Z.eqb_neq _ _) (Hold x (or_introl eq_refl))).
    apply IH. intros y Hy. apply Hold. right. exact Hy.
Qed.

Lemma delete_fresh_row (b : backend) u d db fs :
  doc_id d = next_rowid doc_id db -> doc_user_id d = u ->
  fst (fst (fst (delete_document b u (next_rowid doc_id db) (db ++ [d]) fs))) = true /\
  snd (fst (delete_document b u (next_rowid doc_id db) (db ++ [d]) fs)) = db.
Proof.
  intros Hid Hu.
  assert (Hold : forall x, In x db -> doc_id x <> next_rowid doc_id db)
    by (intros x Hx; pose proof (next_rowid_fresh doc_id db x Hx); lia).
  assert (Hdel : delete_rows (db ++ [d]) (next_rowid doc_id db) u = db).
  { unfold delete_rows. rewrite filter_app. simpl. rewrite Hid, Hu, !Z.eqb_refl. simpl.
    rewrite app_nil_r. apply filter_all_true. intros x Hx.
    rewrite (proj2 (Z.eqb_neq _ _) (Hold x Hx)). reflexivity. }
  destruct b; simpl.
  - unfold sqlite_delete_document.
    rewrite (select_file_path_app_fresh db d _ u Hold Hid Hu).
    destruct (file_path d) as [|p| |]; try (split; [reflexivity | exact Hdel]).
  - unfold supabase_delete_document.
    rewrite (fetch_owner_app_fresh db d _ Hold Hid), Hu, Z.eqb_refl.
    split; [reflexivity | exact Hdel].
Qed.

(** Extra.  On either backend, deleting the document that [add_document] just
    inserted (its id is the fresh one) by the same user succeeds and gives
    back the document table as it was before the upload. *)
Theorem add_then_delete_document (b : backend) (u : Z) (document_data : pydict)
  (now : datetime) (db : list document) (fs : list string) :
  fst (fst (fst (delete_document b u (next_rowid doc_id db)
              (snd (add_document b u document_data now db)) fs))) = true /\
  snd (fst (delete_document b u (next_rowid doc_id db)
              (snd (add_document b u document_data now db)) fs)) = db.
Proof.
  destruct b; simpl; unfold sqlite_add_document, supabase_add_document; simpl;
    [apply (delete_fresh_row SQLite) | apply (delete_fresh_row Supabase)]; reflexivity.
Qed.

(** Extra.  On either backend, repeating a [delete_document] call on the
    state it produced reports ["Document not found or access denied"] and
    changes neither the table nor the files: a successful delete leaves no row
    with that id owned by that user. *)
Theorem delete_document_twice (b : backend) (u i : Z) (db : list document) (fs : list string) :
  let r := delete_document b u i db fs in
  delete_document b u i (snd (fst r)) (snd r) = ((false, msg_not_found), snd (fst r), snd r).
Proof.
  intros r. subst r.
  assert (Hgone : forall d, In d (delete_rows db i u) -> doc_id d = i -> doc_user_id d <> u).
  { intros d Hd Hi Hu. unfold delete_rows in Hd. apply filter_In in Hd.
    destruct Hd as [_ Hd]. rewrite Hi, Hu, !Z.eqb_refl in Hd. discriminate. }
  destruct b; simpl.
  - unfold sqlite_delete_document.
    destruct (select_file_path db i u) as [fp|] eqn:Hs; simpl.
    + rewrite select_file_path_none by exact Hgone. reflexivity.
    + rewrite Hs. reflexivity.
  - unfold supabase_delete_document.
    destruct (fetch_owner db i) as [o|] eqn:Hf; simpl.
    + destruct (Z.eqb_spec o u) as [->|Hne]; simpl.
      * destruct (fetch_owner (delete_rows db i u) i) as [o'|] eqn:Hf'; [|reflexivity].
        destruct (fetch_owner_some_in _ _ _ Hf') as (d & Hd & Hi & Ho).
        destruct (Z.eqb_spec o' u) as [->|]; [|reflexivity].
        exfalso. exact (Hgone d Hd Hi Ho).
      * rewrite Hf. destruct (Z.eqb_spec o u); [contradiction | reflexivity].
    + rewrite Hf. reflexivity.
Qed.

(** ** User profile *)

Lemma filter_key_none {A} (key : A -> Z) (l : list A) u :
  ~ In u (map key l) -> filter (fun p => Z.eqb (key p) u) l = [].
Proof.
  induction l as [|y l IH]; simpl; intros H; [reflexivity|].
  destruct (Z.eqb_spec (key y) u); [tauto|]. apply IH. tauto.
Qed.

Lemma filter_key_unique {A} (key : A -> Z) (l : list A) x u :
  NoDup (map key l) -> In x l -> key x = u -> filter (fun p => Z.eqb (key p) u) l = [x].
Proof.
  induction l as [|y l IH]; simpl; [tauto|]. intros Hnd Hx Hk.
  inversion Hnd as [|? ? Hnotin Hnd']; subst.
  destruct Hx as [<-|Hx].
  - rewrite Z.eqb_refl. f_equal. apply filter_key_none. exact Hnotin.
  - destruct (Z.eqb_spec (key y) (key x)) as [E|E].
    + exfalso. apply Hnotin. rewrite E. apply in_map, Hx.
    + apply IH; auto.
Qed.

(** Extra.  With [user_id UNIQUE] holding before the call, [update_user_profile]
    on either backend keeps one profile row per user; afterwards
    [get_user_profile] returns exactly one row for the user, holding the
    submitted [selected_resume], and the rows of every other user are
    unchanged. *)
Theorem update_user_profile_one_row (b : backend) (u : Z) (profile_data : pydict)
  (now1 now2 : datetime) (tbl : list profile) :
  NoDup (map prof_user_id tbl) ->
  NoDup (map prof_user_id (snd (update_user_profile b u profile_data now1 now2 tbl))) /\
  (exists p, get_user_profile u (snd (update_user_profile b u profile_data now1 now2 tbl)) = [p] /\
             selected_resume p = dict_get profile_data "selected_resume"%string) /\
  (forall v, v <> u ->
     get_user_profile v (snd (update_user_profile b u profile_data now1 now2 tbl))
     = get_user_profile v tbl).
Proof.
  intros Hnd. unfold update_user_profile, get_user_profile.
  destruct (existsb (fun p => Z.eqb (prof_user_id p) u) tbl) eqn:Hex.
  - simpl. set (g := fun p : profile => if Z.eqb (prof_user_id p) u then _ else p).
    assert (Hg : forall p, prof_user_id (g p) = prof_user_id p)
      by (intros p; unfold g; destruct (Z.eqb (prof_user_id p) u); reflexivity).
    assert (Hkeys : map prof_user_id (map g tbl) = map prof_user_id tbl)
      by (rewrite map_map; apply map_ext, Hg).
    apply existsb_exists in Hex. destruct Hex as (p0 & Hp0 & Hu0). apply Z.eqb_eq in Hu0.
    split; [rewrite Hkeys; exact Hnd|]. split.
    + exists (g p0). split.
      * apply filter_key_unique; [rewrite Hkeys; exact Hnd | apply in_map, Hp0 | rewrite Hg; exact Hu0].
      * unfold g. rewrite Hu0, Z.eqb_refl. reflexivity.
    + intros v Hv. clear Hkeys Hp0. induction tbl as [|p tbl IH]; simpl; [reflexivity|].
      rewrite Hg. unfold g at 1.
      destruct (Z.eqb_spec (prof_user_id p) u) as [Eu|Eu].
      * rewrite Eu. simpl. destruct (Z.eqb_spec u v); [congruence|].
        apply IH. inversion Hnd; assumption.
      * destruct (Z.eqb (prof_user_id p) v); [f_equal|]; apply IH; inversion Hnd; assumption.
  - destruct (match b with SQLite => (now1, now2) | Supabase => (now2, now1) end) as [created updated].
    simpl. rewrite map_app. simpl.
    assert (Hnot : ~ In u (map prof_user_id tbl)).
    { intros Hin. apply in_map_iff in Hin. destruct Hin as (p & Hp & Hin).
      assert (existsb (fun p => Z.eqb (prof_user_id p) u) tbl = true)
        by (apply existsb_exists; exists p; split; [exact Hin | apply Z.eqb_eq, Hp]).
      congruence. }
    split; [|split].
    + apply NoDup_app; [exact Hnd | repeat constructor; simpl; tauto |].
      intros x Hx [<-|[]]. exact (Hnot Hx).
    + eexists. rewrite filter_app, filter_key_none by exact Hnot. simpl.
      rewrite Z.eqb_refl. split; reflexivity.
    + intros v Hv. rewrite filter_app. simpl.
      destruct (Z.eqb_spec u v); [congruence|]. apply app_nil_r.
Qed.

Lemma update_user_profile_one_row_witness :
  let tbl := [mkProfile 1 7 (PStr "old.pdf") (PStr "2026-01-01 00:00:00") (PStr "2026-01-01 00:00:00");
              mkProfile 2 8 (PStr "cv.pdf") (PStr "2026-01-01 00:00:00") (PStr "2026-01-01 00:00:00")] in
  let data := [("selected_resume", PStr "new.pdf")]%string in
  let t := mkDatetime 2026 10 17 12 0 0 in
  NoDup (map prof_user_id (snd (update_user_profile SQLite 7 data t t tbl))) /\
  (exists p, get_user_profile 7 (snd (update_user_profile SQLite 7 data t t tbl)) = [p] /\
             selected_resume p = dict_get data "selected_resume"%string) /\
  (forall v, v <> 7 ->
     get_user_profile v (snd (update_user_profile SQLite 7 data t t tbl)) = get_user_profile v tbl).
Proof. intros tbl data t. apply update_user_profile_one_row. nodup_ids. Defined.

(** ** Statistics *)

Lemma bump_sum c k : list_sum (map snd (bump c k)) = S (list_sum (map snd c)).
Proof.
  induction c as [|[k' n] c IH]; simpl; [reflexivity|].
  destruct (pyvalue_eqb k k'); simpl; [reflexivity | rewrite IH; lia].
Qed.

Lemma group_counts_sum_gen keys c :
  list_sum (map snd (fold_left bump keys c)) = (List.length keys + list_sum (map snd c))%nat.
Proof.
  revert c. induction keys as [|k keys IH]; intros c; simpl; [reflexivity|].
  rewrite IH, bump_sum. lia.
Qed.

Lemma group_counts_sum keys : list_sum (map snd (group_counts keys)) = List.length keys.
Proof. unfold group_counts. rewrite group_counts_sum_gen. simpl. lia. Qed.

Lemma filter_length_split {A} (f : A -> bool) l :
  (List.length (filter f l) + List.length (filter (fun x => negb (f x)) l))%nat = List.length l.
Proof.
  induction l as [|x l IH]; simpl; [reflexivity|]. destruct (f x); simpl; lia.
Qed.

(** Extra.  The status counts of [get_user_stats] add up: on SQLite they sum
    to [total_applications]; on Supabase, where [value_counts()] drops
    missing statuses, they sum to [total_applications] minus the number of
    the user's jobs whose status is [None].  On both paths
    [recent_applications] never exceeds [total_applications]. *)
Theorem get_user_stats_totals (u : Z) (now : datetime) (tbl : list job) :
  list_sum (map snd (status_counts (sqlite_get_user_stats u now tbl)))
  = total_applications (sqlite_get_user_stats u now tbl) /\
  (list_sum (map snd (status_counts (supabase_get_user_stats u now tbl)))
   + List.length (filter (fun j => Z.eqb (job_user_id j) u && is_none (status j)) tbl))%nat
  = total_applications (supabase_get_user_stats u now tbl) /\
  (recent_applications (sqlite_get_user_stats u now tbl)
   <= total_applications (sqlite_get_user_stats u now tbl))%nat /\
  (recent_applications (supabase_get_user_stats u now tbl)
   <= total_applications (supabase_get_user_stats u now tbl))%nat.
Proof.
  assert (Hnone : List.length (filter (fun j => Z.eqb (job_user_id j) u && is_none (status j)) tbl)
                  = List.length (filter is_none (map status
                      (filter (fun j => Z.eqb (job_user_id j) u) tbl)))).
  { induction tbl as [|j tbl IH]; simpl; [reflexivity|].
    destruct (Z.eqb (job_user_id j) u); simpl; [destruct (is_none (status j)); simpl; lia | exact IH]. }
  rewrite Hnone. clear Hnone.
  unfold sqlite_get_user_stats, supabase_get_user_stats.
  set (rows := filter (fun j => Z.eqb (job_user_id j) u) tbl).
  split; [|split; [|split]].
  - simpl. rewrite group_counts_sum, length_map. reflexivity.
  - destruct rows as [|j rs] eqn:Hr; [reflexivity|]. rewrite <- Hr. simpl.
    rewrite group_counts_sum, <- (length_map status rows).
    pose proof (filter_length_split is_none (map status rows)) as H. lia.
  - simpl. apply filter_length_le.
  - destruct rows as [|j rs]; [simpl; lia|]. cbn [recent_applications total_applications]. apply filter_length_le.
Qed.

Lemma pyvalue_eqb_sym a b : pyvalue_eqb a b = pyvalue_eqb b a.
Proof.
  destruct a, b; simpl; try reflexivity.
  - apply String.eqb_sym.
  - apply Z.eqb_sym.
  - destruct b, b0; reflexivity.
Qed.

Lemma counts_get_bump c x k :
  counts_get (bump c x) k
  = if pyvalue_eqb k x
    then match counts_get c k with Some a => Some (S a) | None => Some 1%nat end
    else counts_get c k.
Proof.
  induction c as [|[k' n] c IH]; simpl.
  - destruct (pyvalue_eqb k x); reflexivity.
  - destruct (pyvalue_eqb x k') eqn:E1.
    + apply pyvalue_eqb_true in E1. subst k'. simpl.
      destruct (pyvalue_eqb k x); reflexivity.
    + simpl. rewrite IH.
      destruct (pyvalue_eqb k k') eqn:E2; [|reflexivity].
      apply pyvalue_eqb_true in E2. subst k'.
      rewrite pyvalue_eqb_sym in E1. rewrite E1. reflexivity.
Qed.

Lemma counts_get_fold keys c k :
  counts_get (fold_left bump keys c) k
  = match counts_get c k with
    | Some a => Some (a + List.length (filter (pyvalue_eqb k) keys))%nat
    | None => match List.length (filter (pyvalue_eqb k) keys) with
              | O => None
              | n => Some n
              end
    end.
Proof.
  revert c. induction keys as [|x keys IH]; intros c; simpl.
  - destruct (counts_get c k); [f_equal; lia | reflexivity].
  - rewrite IH, counts_get_bump.
    destruct (pyvalue_eqb k x); simpl;
      destruct (counts_get c k); try (f_equal; lia); reflexivity.
Qed.

Lemma group_counts_get keys k :
  counts_get (group_counts keys) k
  = match List.length (filter (pyvalue_eqb k) keys) with O => None | n => Some n end.
Proof. unfold group_counts. rewrite counts_get_fold. reflexivity. Qed.

Lemma count_status_rows u k tbl :
  List.length (filter (pyvalue_eqb k) (map status (filter (fun j => Z.eqb (job_user_id j) u) tbl)))
  = List.length (filter (fun j => Z.eqb (job_user_id j) u && pyvalue_eqb (status j) k) tbl).
Proof.
  induction tbl as [|j tbl IH]; simpl; [reflexivity|].
  destruct (Z.eqb (job_user_id j) u); simpl; [|exact IH].
  rewrite pyvalue_eqb_sym. destruct (pyvalue_eqb (status j) k); simpl; rewrite IH; reflexivity.
Qed.

Lemma filter_eqb_not_none k vs :
  List.length (filter (pyvalue_eqb k) (filter (fun v => negb (is_none v)) vs))
  = if is_none k then O else List.length (filter (pyvalue_eqb k) vs).
Proof.
  induction vs as [|a vs IH]; simpl; [destruct (is_none k); reflexivity|].
  destruct k, a; simpl in *; rewrite ?IH; try reflexivity;
    match goal with |- context [if ?c then _ else _] => destruct c end;
    simpl; rewrite ?IH; reflexivity.
Qed.

(** Extra.  What [get_user_stats] reports per status: on SQLite the count
    under any key, [None] included, is the number of the user's jobs with that
    status, and a key with no such job is absent; on Supabase the same holds
    for every key but [None], which is never present. *)
Theorem get_user_stats_status_counts (u : Z) (now : datetime) (tbl : list job) (k : pyvalue) :
  counts_get (status_counts (sqlite_get_user_stats u now tbl)) k
  = match List.length (filter (fun j => Z.eqb (job_user_id j) u && pyvalue_eqb (status j) k) tbl) with
    | O => None
    | n => Some n
    end /\
  counts_get (status_counts (supabase_get_user_stats u now tbl)) k
  = if is_none k then None
    else match List.length (filter (fun j => Z.eqb (job_user_id j) u
                                            && pyvalue_eqb (status j) k) tbl) with
         | O => None
         | n => Some n
         end.
Proof.
  rewrite <- count_status_rows. unfold sqlite_get_user_stats, supabase_get_user_stats.
  set (rows := filter (fun j => Z.eqb (job_user_id j) u) tbl).
  split.
  - simpl. apply group_counts_get.
  - destruct rows as [|j rs] eqn:Hr; [simpl; destruct (is_none k); reflexivity|].
    cbv beta iota zeta delta [status_counts]. rewrite <- Hr.
    rewrite group_counts_get.
    rewrite filter_eqb_not_none. destruct (is_none k); reflexivity.
Qed.

(** ** The documents grid, once more *)

Lemma doc_after_app u rows1 rows2 d :
  doc_after u (rows1 ++ rows2) d = doc_after u rows2 (doc_after u rows1 d).
Proof. unfold doc_after. apply fold_left_app. Qed.

Lemma step_doc_frame u d r : doc_frame (step_doc u d r) = doc_frame d.
Proof. unfold step_doc. destruct (_ && _); reflexivity. Qed.

Lemma doc_after_frame u rows d : doc_frame (doc_after u rows d) = doc_frame d.
Proof.
  unfold doc_after. revert d. induction rows as [|r rows IH]; intros d; simpl;
    [reflexivity|]. rewrite IH. apply step_doc_frame.
Qed.

Lemma doc_frame_eq d d' :
  doc_frame d = doc_frame d' -> preferred_resume d = preferred_resume d' -> d = d'.
Proof.
  destruct d, d'. unfold doc_frame. simpl. intros H Hp. injection H as -> -> -> -> -> -> ->.
  subst. reflexivity.
Qed.

(** The last row of the batch that names a document of the acting user sets
    its flag. *)
Lemma doc_after_last_row u rows1 r rows2 d :
  doc_user_id d = u -> row_id r = doc_id d ->
  (forall r', In r' rows2 -> row_id r' <> doc_id d) ->
  preferred_resume (doc_after u (rows1 ++ r :: rows2) d) = preferred_value (row_preferred_resume r).
Proof.
  intros Hu Hid Hlast. rewrite doc_after_app.
  change (doc_after u (r :: rows2) (doc_after u rows1 d))
    with (doc_after u rows2 (step_doc u (doc_after u rows1 d) r)).
  rewrite doc_after_untouched by (rewrite step_doc_id, doc_after_id; exact Hlast).
  unfold step_doc. rewrite doc_after_id, doc_after_user, Hid, Hu, !Z.eqb_refl. reflexivity.
Qed.

Lemma doc_after_same_frame u rows d d' :
  doc_frame d = doc_frame d' -> doc_user_id d = u ->
  (exists r, In r rows /\ row_id r = doc_id d) ->
  doc_after u rows d = doc_after u rows d'.
Proof.
  revert d d'. induction rows as [|r rows IH]; intros d d' Hf Hu Hex.
  - destruct Hex as (? & [] & _).
  - change (doc_after u (r :: rows) ?x) with (doc_after u rows (step_doc u x r)).
    assert (Hid : doc_id d' = doc_id d) by (unfold doc_frame in Hf; congruence).
    assert (Hu' : doc_user_id d' = doc_user_id d) by (unfold doc_frame in Hf; congruence).
    destruct (Z.eqb_spec (row_id r) (doc_id d)) as [E|E].
    + f_equal. apply doc_frame_eq; [rewrite !step_doc_frame; exact Hf|].
      unfold step_doc. rewrite Hid, Hu', <- E, Z.eqb_refl, Hu, Z.eqb_refl. reflexivity.
    + apply IH.
      * rewrite !step_doc_frame. exact Hf.
      * rewrite step_doc_user. exact Hu.
      * destruct Hex as (r' & [<-|Hin] & Hr'); [contradiction|].
        exists r'. rewrite step_doc_id. auto.
Qed.

Lemma doc_after_other_user u rows d : doc_user_id d <> u -> doc_after u rows d = d.
Proof.
  intros Hu. unfold doc_after. induction rows as [|r rows IH]; simpl; [reflexivity|].
  unfold step_doc at 2. destruct (Z.eqb_spec (doc_user_id d) u); [contradiction|].
  rewrite andb_false_r. exact IH.
Qed.

Lemma doc_after_idem u rows d : doc_after u rows (doc_after u rows d) = doc_after u rows d.
Proof.
  destruct (Z.eqb_spec (doc_user_id d) u) as [Hu|Hu];
    [|rewrite !(doc_after_other_user u rows d Hu); reflexivity].
  destruct (existsb (fun r => Z.eqb (row_id r) (doc_id d)) rows) eqn:Hex.
  - apply doc_after_same_frame.
    + apply doc_after_frame.
    + rewrite doc_after_user. exact Hu.
    + apply existsb_exists in Hex. destruct Hex as (r & Hr & E). apply Z.eqb_eq in E.
      exists r. rewrite doc_after_id. auto.
  - assert (Hnone : forall r, In r rows -> row_id r <> doc_id d).
    { intros r Hr E. assert (existsb (fun r => Z.eqb (row_id r) (doc_id d)) rows = true)
        by (apply existsb_exists; exists r; split; [exact Hr | apply Z.eqb_eq, E]).
      congruence. }
    rewrite !(doc_after_untouched u rows d Hnone). reflexivity.
Qed.

(** Extra.  With primary-key ids, after a successful batch save on either
    backend, a document of the acting user that the batch names carries the
    flag of the last batch row naming it ([1 if row['preferred_resume'] else 0]). *)
Theorem save_documents_last_row_wins (b : backend) (u : Z) (rows rows1 rows2 : list doc_row)
  (r : doc_row) (db db' : list document) (msg : string) (d d' : document) :
  NoDup (map doc_id db) ->
  save_documents_to_database b u rows db = ((true, msg), db') ->
  rows = rows1 ++ r :: rows2 -> (forall r', In r' rows2 -> row_id r' <> row_id r) ->
  In d db -> doc_user_id d = u -> doc_id d = row_id r ->
  In d' db' -> doc_id d' = doc_id d ->
  preferred_resume d' = preferred_value (row_preferred_resume r).
Proof.
  intros Hnd Hs Hrows Hlast Hd Hu Hid Hd' Hid'.
  destruct (save_documents_success _ _ _ _ _ _ Hs) as [_ ->].
  rewrite update_documents_pointwise in Hd' by exact Hnd.
  apply in_map_iff in Hd'. destruct Hd' as (x & <- & Hx).
  rewrite doc_after_id in Hid'.
  rewrite (nodup_key_inj doc_id db x d Hnd Hx Hd Hid'), Hrows.
  apply doc_after_last_row; [exact Hu | symmetry; exact Hid|].
  rewrite Hid. exact Hlast.
Qed.

Lemma save_documents_last_row_wins_witness :
  let db := [mkDocument 1 7 (PStr "cv.pdf") (PStr "Resume") PNone PNone PNone 0] in
  let rows := [mkDocRow 1 PNone PNone PNone false; mkDocRow 1 PNone PNone PNone true] in
  preferred_resume (hd (mkDocument 0 0 PNone PNone PNone PNone PNone 0)
                      (snd (save_documents_to_database SQLite 7 rows db)))
  = preferred_value true.
Proof.
  intros db rows.
  apply (save_documents_last_row_wins SQLite 7 rows [mkDocRow 1 PNone PNone PNone false] []
           (mkDocRow 1 PNone PNone PNone true) db
           (snd (save_documents_to_database SQLite 7 rows db)) msg_documents_updated
           (mkDocument 1 7 (PStr "cv.pdf") (PStr "Resume") PNone PNone PNone 0)).
  - nodup_ids.
  - reflexivity.
  - reflexivity.
  - intros r' [].
  - left. reflexivity.
  - reflexivity.
  - reflexivity.
  - vm_compute. left. reflexivity.
  - vm_compute. reflexivity.
Defined.

(** Extra.  With primary-key ids, submitting the same documents grid again
    right after a successful save, on either backend, succeeds and leaves the
    table as the first save left it. *)
Theorem save_documents_idempotent (b : backend) (u : Z) (rows : list doc_row)
  (db db' : list document) (msg : string) :
  NoDup (map doc_id db) ->
  save_documents_to_database b u rows db = ((true, msg), db') ->
  save_documents_to_database b u rows db' = ((true, msg), db').
Proof.
  intros Hnd Hs.
  assert (Hs' := Hs). destruct (save_documents_success _ _ _ _ _ _ Hs') as [Hc Hdb].
  assert (Hnd' : NoDup (map doc_id db')).
  { rewrite Hdb, update_documents_pointwise, map_map by exact Hnd.
    erewrite map_ext; [exact Hnd|]. intros d. apply doc_after_id. }
  assert (Hfix : update_documents u rows db' = db').
  { rewrite update_documents_pointwise by exact Hnd'.
    rewrite Hdb, update_documents_pointwise, map_map by exact Hnd.
    apply map_ext. apply doc_after_idem. }
  revert Hs. destruct b; simpl;
    unfold sqlite_save_documents_to_database, supabase_save_documents_to_database;
    destruct (Nat.ltb_spec 1 (preferred_count rows)); intros Hr; inversion Hr; subst;
    rewrite ?Hfix; reflexivity.
Qed.

Lemma save_documents_idempotent_witness :
  let db := [mkDocument 1 7 (PStr "cv.pdf") (PStr "Resume") PNone PNone PNone 0;
             mkDocument 2 7 (PStr "cl.pdf") (PStr "Cover Letter") PNone PNone PNone 1] in
  let rows := [mkDocRow 1 PNone PNone PNone true; mkDocRow 2 PNone PNone PNone false] in
  save_documents_to_database Supabase 7 rows (snd (save_documents_to_database Supabase 7 rows db))
  = ((true, msg_documents_updated), snd (save_documents_to_database Supabase 7 rows db)).
Proof.
  intros db rows. apply (save_documents_idempotent Supabase 7 rows db); [nodup_ids | reflexivity].
Defined.

Lemma filter_all_false {A} (f : A -> bool) l :
  (forall x, In x l -> f x = false) -> filter f l = [].
Proof.
  induction l as [|x l IH]; simpl; intros H; [reflexivity|].
  rewrite (H x (or_introl eq_refl)). apply IH. intros y Hy. apply H. right. exact Hy.
Qed.

Lemma filter_single_key {A} (key : A -> Z) (f : A -> bool) l x :
  NoDup (map key l) -> In x l -> f x = true ->
  (forall y, In y l -> key y <> key x -> f y = false) -> filter f l = [x].
Proof.
  induction l as [|y l IH]; simpl; [tauto|]. intros Hnd Hx Hfx Hother.
  inversion Hnd as [|? ? Hnotin Hnd']; subst.
  destruct Hx as [<-|Hx].
  - rewrite Hfx. f_equal. apply filter_all_false. intros z Hz. apply Hother; [right; exact Hz|].
    intros E. apply Hnotin. rewrite <- E. apply in_map, Hz.
  - rewrite (Hother y (or_introl eq_refl)).
    + apply IH; [exact Hnd' | exact Hx | exact Hfx | intros z Hz; apply Hother; right; exact Hz].
    + intros E. apply Hnotin. rewrite E. apply in_map, Hx.
Qed.

Lemma filter_map_comm {A} (f : A -> bool) (g : A -> A) l :
  filter f (map g l) = map g (filter (fun x => f (g x)) l).
Proof.
  induction l as [|x l IH]; simpl; [reflexivity|]. destruct (f (g x)); simpl; rewrite IH; reflexivity.
Qed.

Lemma nodup_row_last (rows : list doc_row) r :
  NoDup (map row_id rows) -> In r rows ->
  exists rows1 rows2, rows = rows1 ++ r :: rows2 /\
                      (forall r', In r' rows2 -> row_id r' <> row_id r).
Proof.
  intros Hnd Hr. destruct (in_split r rows Hr) as (rows1 & rows2 & Heq).
  exists rows1, rows2. split; [exact Heq|]. intros r' Hr' E.
  subst rows. rewrite map_app in Hnd. simpl in Hnd.
  apply NoDup_remove_2 in Hnd. apply Hnd. apply in_or_app. right.
  rewrite <- E. apply in_map, Hr'.
Qed.

(** Extra.  When the documents grid lists each of the user's documents once
    (ids being primary keys) and exactly one row is flagged, naming a
    document of the user whose type is ['Resume'], the save succeeds on either
    backend and [get_preferred_resume] then returns that document alone, now
    flagged. *)
Theorem save_then_get_preferred_resume (b : backend) (u : Z) (rows : list doc_row)
  (db : list document) (r0 : doc_row) (d0 : document) :
  NoDup (map doc_id db) -> NoDup (map row_id rows) ->
  (forall d, In d db -> doc_user_id d = u -> exists r, In r rows /\ row_id r = doc_id d) ->
  filter row_preferred_resume rows = [r0] ->
  In d0 db -> doc_user_id d0 = u -> doc_id d0 = row_id r0 ->
  document_type d0 = PStr "Resume"%string ->
  fst (fst (save_documents_to_database b u rows db)) = true /\
  get_preferred_resume b u (snd (save_documents_to_database b u rows db))
  = Some [doc_after u rows d0] /\
  preferred_resume (doc_after u rows d0) = 1.
Proof.
  intros Hnd Hndr Hall Hone Hd0 Hu0 Hid0 Ht0.
  assert (Hr0 : In r0 rows /\ row_preferred_resume r0 = true)
    by (apply filter_In; rewrite Hone; left; reflexivity).
  assert (Hflag : preferred_resume (doc_after u rows d0) = 1).
  { destruct (nodup_row_last rows r0 Hndr (proj1 Hr0)) as (rows1 & rows2 & Heq & Hlast).
    rewrite Heq, (doc_after_last_row u rows1 r0 rows2 d0 Hu0 (eq_sym Hid0)),
      (proj2 Hr0) by (rewrite Hid0; exact Hlast).
    reflexivity. }
  assert (Hsave : save_documents_to_database b u rows db
                  = ((true, msg_documents_updated), update_documents u rows db)).
  { assert (Hc : preferred_count rows = 1%nat) by (unfold preferred_count; rewrite Hone; reflexivity).
    destruct b; simpl; unfold sqlite_save_documents_to_database, supabase_save_documents_to_database;
      rewrite Hc; reflexivity. }
  rewrite Hsave. simpl. split; [reflexivity|]. split; [|exact Hflag].
  unfold get_preferred_resume.
  rewrite update_documents_pointwise, filter_map_comm by exact Hnd.
  rewrite (filter_single_key doc_id _ db d0 Hnd Hd0); [reflexivity | |].
  - unfold is_preferred_resume_of.
    rewrite doc_after_user, Hu0, Z.eqb_refl, Hflag. simpl.
    assert (Hty : document_type (doc_after u rows d0) = document_type d0)
      by (pose proof (doc_after_frame u rows d0) as F; unfold doc_frame in F; congruence).
    rewrite Hty, Ht0. reflexivity.
  - intros d Hd Hne. unfold is_preferred_resume_of. rewrite doc_after_user.
    destruct (Z.eqb_spec (doc_user_id d) u) as [Hu|Hu]; [|reflexivity]. simpl.
    destruct (Hall d Hd Hu) as (r & Hr & Hrid).
    assert (Hrf : row_preferred_resume r = false).
    { destruct (row_preferred_resume r) eqn:E; [|reflexivity].
      assert (Hin : In r (filter row_preferred_resume rows)) by (apply filter_In; auto).
      rewrite Hone in Hin. destruct Hin as [<-|[]]. exfalso. apply Hne. congruence. }
    destruct (nodup_row_last rows r Hndr Hr) as (rows1 & rows2 & Heq & Hlast).
    rewrite Heq, (doc_after_last_row u rows1 r rows2 d Hu Hrid), Hrf
      by (rewrite <- Hrid; exact Hlast).
    reflexivity.
Qed.

Lemma save_then_get_preferred_resume_witness :
  let db := [mkDocument 1 7 (PStr "cv.pdf") (PStr "Resume") PNone PNone PNone 1;
             mkDocument 2 7 (PStr "cv2.pdf") (PStr "Resume") PNone PNone PNone 0;
             mkDocument 3 8 (PStr "x.pdf") (PStr "Resume") PNone PNone PNone 1] in
  let rows := [mkDocRow 1 PNone PNone PNone false; mkDocRow 2 PNone PNone PNone true] in
  fst (fst (save_documents_to_database SQLite 7 rows db)) = true /\
  get_preferred_resume SQLite 7 (snd (save_documents_to_database SQLite 7 rows db))
  = Some [doc_after 7 rows (mkDocument 2 7 (PStr "cv2.pdf") (PStr "Resume") PNone PNone PNone 0)] /\
  preferred_resume (doc_after 7 rows (mkDocument 2 7 (PStr "cv2.pdf") (PStr "Resume") PNone PNone PNone 0)) = 1.
Proof.
  intros db rows.
  apply (save_then_get_preferred_resume SQLite 7 rows db (mkDocRow 2 PNone PNone PNone true)).
  - nodup_ids.
  - nodup_ids.
  - intros d Hd Hu. simpl in Hd.
    destruct Hd as [<-|[<-|[<-|[]]]]; simpl in Hu; try discriminate.
    + exists (mkDocRow 1 PNone PNone PNone false). simpl. auto.
    + exists (mkDocRow 2 PNone PNone PNone true). simpl. auto.
  - reflexivity.
  - right. left. reflexivity.
  - reflexivity.
  - reflexivity.
  - reflexivity.
Defined.

(** ** Schema migration *)

Lemma str_lookup_map_append (s : schema) t0 c t :
  str_lookup (map (fun e => if String.eqb (fst e) t0 then (fst e, snd e ++ [c]) else e) s) t
  = match str_lookup s t with
    | Some cols => Some (if String.eqb t t0 then cols ++ [c] else cols)
    | None => None
    end.
Proof.
  induction s as [|[t' cols'] s IH]; simpl; [reflexivity|].
  destruct (String.eqb_spec t' t0) as [->|Hne]; simpl.
  - destruct (String.eqb_spec t t0); [reflexivity | exact IH].
  - destruct (String.eqb_spec t t'); [|exact IH]. subst.
    destruct (String.eqb_spec t' t0); [contradiction | reflexivity].
Qed.

Lemma str_lookup_try_alter (s : schema) t0 c t :
  str_lookup (try_alter s (t0, c)) t
  = match str_lookup s t with
    | Some cols =>
        Some (if String.eqb t t0 && negb (existsb (String.eqb c) cols) then cols ++ [c] else cols)
    | None => None
    end.
Proof.
  unfold try_alter, alter_add_column. simpl.
  destruct (str_lookup s t0) as [cols0|] eqn:E0.
  - destruct (existsb (String.eqb c) cols0) eqn:Ex.
    + destruct (str_lookup s t) eqn:E; [|reflexivity].
      destruct (String.eqb_spec t t0) as [->|]; simpl; [|reflexivity].
      rewrite E0 in E. injection E as <-. rewrite Ex. reflexivity.
    + rewrite str_lookup_map_append.
      destruct (str_lookup s t) eqn:E; [|reflexivity].
      destruct (String.eqb_spec t t0) as [->|]; simpl; [|reflexivity].
      rewrite E0 in E. injection E as <-. rewrite Ex. reflexivity.
  - destruct (str_lookup s t) eqn:E; [|reflexivity].
    destruct (String.eqb_spec t t0) as [->|]; simpl; [congruence | reflexivity].
Qed.

Lemma try_alter_keeps (s : schema) tc t c' :
  (str_lookup s t = None <-> str_lookup (try_alter s tc) t = None) /\
  (forall cols, str_lookup s t = Some cols -> In c' cols ->
     exists cols', str_lookup (try_alter s tc) t = Some cols' /\ In c' cols').
Proof.
  destruct tc as [t0 c]. rewrite str_lookup_try_alter.
  split; [destruct (str_lookup s t); split; congruence|].
  intros cols -> Hin. eexists. split; [reflexivity|].
  destruct (_ && _); [apply in_or_app; left|]; exact Hin.
Qed.

Lemma migrate_keeps l (s : schema) t c' :
  (str_lookup s t = None <-> str_lookup (fold_left try_alter l s) t = None) /\
  (forall cols, str_lookup s t = Some cols -> In c' cols ->
     exists cols', str_lookup (fold_left try_alter l s) t = Some cols' /\ In c' cols').
Proof.
  revert s. induction l as [|tc l IH]; intros s; simpl.
  - split; [tauto|]. intros cols H Hin. exists cols. auto.
  - destruct (try_alter_keeps s tc t c') as [H1 H2].
    destruct (IH (try_alter s tc)) as [H3 H4]. split; [tauto|].
    intros cols Hs Hin. destruct (H2 cols Hs Hin) as (cols' & Hs' & Hin').
    exact (H4 cols' Hs' Hin').
Qed.

Lemma try_alter_adds (s : schema) t c :
  (exists cols, str_lookup s t = Some cols) ->
  exists cols', str_lookup (try_alter s (t, c)) t = Some cols' /\ In c cols'.
Proof.
  intros (cols & Hs). rewrite str_lookup_try_alter, Hs, String.eqb_refl. simpl.
  eexists. split; [reflexivity|].
  destruct (existsb (String.eqb c) cols) eqn:Ex; simpl.
  - apply existsb_exists in Ex. destruct Ex as (c0 & Hin & E).
    apply String.eqb_eq in E. subst. exact Hin.
  - apply in_or_app. right. left. reflexivity.
Qed.

Lemma try_alter_noop (s : schema) t c :
  (str_lookup s t = None \/ exists cols, str_lookup s t = Some cols /\ In c cols) ->
  try_alter s (t, c) = s.
Proof.
  unfold try_alter, alter_add_column. simpl. intros [->|(cols & -> & Hin)]; [reflexivity|].
  replace (existsb (String.eqb c) cols) with true; [reflexivity|].
  symmetry. apply existsb_exists. exists c. split; [exact Hin | apply String.eqb_refl].
Qed.

Lemma fold_try_alter_noop l (s : schema) :
  (forall tc, In tc l -> try_alter s tc = s) -> fold_left try_alter l s = s.
Proof.
  induction l as [|tc l IH]; simpl; intros H; [reflexivity|].
  rewrite (H tc (or_introl eq_refl)). apply IH. intros tc' Htc. apply H. right. exact Htc.
Qed.

Lemma migrate_adds (s : schema) t c :
  In (t, c) migration_columns -> (exists cols, str_lookup s t = Some cols) ->
  exists cols', str_lookup (fold_left try_alter migration_columns s) t = Some cols' /\ In c cols'.
Proof.
  intros Hin Hex. destruct (in_split _ _ Hin) as (l1 & l2 & Heq).
  rewrite Heq, fold_left_app. simpl.
  assert (Hex1 : exists cols, str_lookup (fold_left try_alter l1 s) t = Some cols).
  { destruct Hex as (cols & Hs).
    destruct (str_lookup (fold_left try_alter l1 s) t) as [cols1|] eqn:E; [eauto|].
    apply (proj1 (migrate_keeps l1 s t c)) in E. congruence. }
  destruct (try_alter_adds _ t c Hex1) as (cols' & Hs' & Hin').
  exact (proj2 (migrate_keeps l2 _ t c) cols' Hs' Hin').
Qed.

(** Extra.  [migrate_existing_data] always reports success; afterwards every
    table the migration names that exists has the column it adds, no table is
    created or loses a column, and running it a second time changes nothing. *)
Theorem migrate_existing_data_spec (s : schema) :
  fst (migrate_existing_data s) = (true, "Migration completed successfully!"%string) /\
  (forall t c, In (t, c) migration_columns -> (exists cols, str_lookup s t = Some cols) ->
     exists cols', str_lookup (snd (migrate_existing_data s)) t = Some cols' /\ In c cols') /\
  (forall t, str_lookup s t = None <-> str_lookup (snd (migrate_existing_data s)) t = None) /\
  (forall t cols c, str_lookup s t = Some cols -> In c cols ->
     exists cols', str_lookup (snd (migrate_existing_data s)) t = Some cols' /\ In c cols') /\
  snd (migrate_existing_data (snd (migrate_existing_data s))) = snd (migrate_existing_data s).
Proof.
  unfold migrate_existing_data. cbn [fst snd].
  split; [reflexivity|]. split; [exact (migrate_adds s)|].
  split; [intros t; exact (proj1 (migrate_keeps migration_columns s t ""%string))|].
  split; [intros t cols c; exact (proj2 (migrate_keeps migration_columns s t c) cols)|].
  apply fold_try_alter_noop. intros [t c] Htc. apply try_alter_noop.
  destruct (str_lookup s t) as [cols|] eqn:E.
  - right. apply migrate_adds; eauto.
  - left. apply (proj1 (migrate_keeps migration_columns s t ""%string)), E.
Qed.
